(** * Question Companion: the derivation pipeline of [src/app/page.tsx]

    A shallow embedding of the [Home] component: its React state, the four
    memoised derived values ([progress], [insights], [recommendedPrompts],
    [formattedSummary]), the keyword toggle and the copy handler with its
    reset timer.

    JavaScript strings are sequences of UTF-16 code units, and [.length],
    [.trim()], [===] and [.includes] all work on code units; a string is
    therefore a [list N] here, never a list of bytes. *)

From Stdlib Require Import String Ascii.
From Stdlib Require Import List NArith ZArith QArith Qround Bool Lia.
From Stdlib Require Import Sorted.
Import ListNotations.

Set Implicit Arguments.

(** ** JavaScript strings *)

Module JS.

Definition jsstring := list N.

Definition jsstring_eq_dec : forall a b : jsstring, {a = b} + {a <> b} :=
  list_eq_dec N.eq_dec.

(** [a === b] on strings. *)
Definition streq (a b : jsstring) : bool :=
  if jsstring_eq_dec a b then true else false.

(** *** Literals

    The source file is UTF-8; the engine holds its literals as UTF-16.
    [lit] decodes the bytes of a Rocq string literal to code points and
    re-encodes them as code units (a surrogate pair above U+FFFF). *)

Local Open Scope N_scope.

Fixpoint utf8_points (bs : list N) : list N :=
  match bs with
  | [] => []
  | b0 :: r0 =>
    if b0 <? 0x80 then b0 :: utf8_points r0
    else
      match r0 with
      | [] => []
      | b1 :: r1 =>
        if b0 <? 0xE0 then
          N.lor (N.shiftl (N.land b0 0x1F) 6) (N.land b1 0x3F) :: utf8_points r1
        else
          match r1 with
          | [] => []
          | b2 :: r2 =>
            if b0 <? 0xF0 then
              N.lor (N.shiftl (N.land b0 0x0F) 12)
                (N.lor (N.shiftl (N.land b1 0x3F) 6) (N.land b2 0x3F))
              :: utf8_points r2
            else
              match r2 with
              | [] => []
              | b3 :: r3 =>
                N.lor (N.shiftl (N.land b0 0x07) 18)
                  (N.lor (N.shiftl (N.land b1 0x3F) 12)
                     (N.lor (N.shiftl (N.land b2 0x3F) 6) (N.land b3 0x3F)))
                :: utf8_points r3
              end
          end
      end
  end.

Definition utf16_units (cp : N) : list N :=
  if cp <? 0x10000 then [cp]
  else
    let v := cp - 0x10000 in
    [0xD800 + N.shiftr v 10; 0xDC00 + N.land v 0x3FF].

Definition lit (s : string) : jsstring :=
  flat_map utf16_units (utf8_points (map N_of_ascii (list_ascii_of_string s))).

(** *** [String.prototype.trim]

    ECMAScript strips WhiteSpace and LineTerminator code points from both
    ends; all of them lie in the Basic Multilingual Plane, so the test is
    on single code units. *)

Definition is_white_space (c : N) : bool :=
  (c =? 0x0009) || (c =? 0x000A) || (c =? 0x000B) || (c =? 0x000C)
  || (c =? 0x000D) || (c =? 0x0020) || (c =? 0x00A0) || (c =? 0x1680)
  || ((0x2000 <=? c) && (c <=? 0x200A))
  || (c =? 0x2028) || (c =? 0x2029) || (c =? 0x202F) || (c =? 0x205F)
  || (c =? 0x3000) || (c =? 0xFEFF).

Fixpoint trimStart (s : jsstring) : jsstring :=
  match s with
  | [] => []
  | c :: r => if is_white_space c then trimStart r else s
  end.

Definition trimEnd (s : jsstring) : jsstring := rev (trimStart (rev s)).

Definition trim (s : jsstring) : jsstring := trimEnd (trimStart s).

(** *** Truthiness, [||], [join], [slice] *)

(** A string is falsy exactly when it is the empty string. *)
Definition truthy (s : jsstring) : bool :=
  match s with [] => false | _ :: _ => true end.

(** [a || b] on strings. *)
Definition or_else (a b : jsstring) : jsstring := if truthy a then a else b.

(** [xs.join(sep)] on an array of strings. *)
Fixpoint join (sep : jsstring) (xs : list jsstring) : jsstring :=
  match xs with
  | [] => []
  | [x] => x
  | x :: r => x ++ sep ++ join sep r
  end.

(** [xs.slice(start, end)] for non-negative indices. *)
Definition slice {A : Type} (xs : list A) (start stop : nat) : list A :=
  firstn (stop - start) (skipn start xs).

(** [xs.includes(k)] on an array of strings. *)
Definition includes (xs : list jsstring) (k : jsstring) : bool :=
  existsb (fun item => streq item k) xs.

(** [Math.round]: nearest integer, ties towards positive infinity. *)
Definition Math_round (x : Q) : Z := Qfloor (x + (1 # 2)).

End JS.

Import JS.

(** ** React state of [Home] *)

Inductive StepKey := Kquestion | Kbackground | Kgoal | Kconstraints.

Inductive Tone := positive | warning.

Record Insight := {
  title : jsstring;
  description : jsstring;
  tone : Tone
}.

Record FormState := {
  stage : StepKey;
  question : jsstring;
  background : jsstring;
  goal : jsstring;
  constraints : jsstring;
  keywords : list jsstring;
  copied : bool
}.

(** The values passed to [useState]. *)
Definition initialState : FormState :=
  {| stage := Kquestion; question := []; background := []; goal := [];
     constraints := []; keywords := []; copied := false |}.

Definition setStage (v : StepKey) (s : FormState) : FormState :=
  {| stage := v; question := question s; background := background s;
     goal := goal s; constraints := constraints s; keywords := keywords s;
     copied := copied s |}.

Definition setQuestion (v : jsstring) (s : FormState) : FormState :=
  {| stage := stage s; question := v; background := background s;
     goal := goal s; constraints := constraints s; keywords := keywords s;
     copied := copied s |}.

Definition setBackground (v : jsstring) (s : FormState) : FormState :=
  {| stage := stage s; question := question s; background := v;
     goal := goal s; constraints := constraints s; keywords := keywords s;
     copied := copied s |}.

Definition setGoal (v : jsstring) (s : FormState) : FormState :=
  {| stage := stage s; question := question s; background := background s;
     goal := v; constraints := constraints s; keywords := keywords s;
     copied := copied s |}.

Definition setConstraints (v : jsstring) (s : FormState) : FormState :=
  {| stage := stage s; question := question s; background := background s;
     goal := goal s; constraints := v; keywords := keywords s;
     copied := copied s |}.

(** [setKeywords] is only ever called with an updater function. *)
Definition setKeywords (f : list jsstring -> list jsstring) (s : FormState)
  : FormState :=
  {| stage := stage s; question := question s; background := background s;
     goal := goal s; constraints := constraints s; keywords := f (keywords s);
     copied := copied s |}.

Definition setCopied (v : bool) (s : FormState) : FormState :=
  {| stage := stage s; question := question s; background := background s;
     goal := goal s; constraints := constraints s; keywords := keywords s;
     copied := v |}.

(** ** Module-level constants *)

Definition positivePhrases : list jsstring :=
  [ lit "Great clarity!"; lit "Solid context!"; lit "Thoughtful goal!";
    lit "Nice constraints!" ].

Definition warningPhrases : list jsstring :=
  [ lit "Could use more detail."; lit "Think about edge cases.";
    lit "Consider scope & timing."; lit "Clarify who is impacted." ].

(** [arr[i]]; the indices used below are all in range. *)
Definition at_index (arr : list jsstring) (i : nat) : jsstring := nth i arr [].

(** ** Derived values

    Each [useMemo] lists every state variable its body reads, so the
    memoised value always equals the body evaluated on the current state. *)

(** Lines 67-71.  The division and the product are on doubles in the
    source; [filled / 4] is a multiple of 1/4 and the product a multiple of
    25, both exact in binary floating point, so rationals compute the same
    number. *)
Definition progress (s : FormState) : Z :=
  let entries := [question s; background s; goal s; constraints s] in
  let filled :=
    length (filter (fun field => (0 <? length (trim field))%nat) entries) in
  Math_round
    ((inject_Z (Z.of_nat filled) / inject_Z (Z.of_nat (length entries)))
     * inject_Z 100).

(** Lines 73-143.  [insightsList] is a local array that [addInsight]
    pushes onto; it is threaded through explicitly. *)
Definition addInsight (params : Insight) (insightsList : list Insight)
  : list Insight :=
  insightsList ++ [params].

Definition insights (s : FormState) : list Insight :=
  let insightsList : list Insight := [] in
  let insightsList :=
    if (10 <? length (trim (question s)))%nat then
      addInsight
        {| title := at_index positivePhrases 0;
           description :=
             lit "Your question has enough detail to start digging in.";
           tone := positive |} insightsList
    else
      addInsight
        {| title := at_index warningPhrases 0;
           description :=
             lit "Expand the core question with specifics. Try starting with who, what, when, where, why, or how.";
           tone := warning |} insightsList in
  let insightsList :=
    if (20 <? length (trim (background s)))%nat then
      addInsight
        {| title := at_index positivePhrases 1;
           description :=
             lit "Solid background info makes it easier to deliver a precise answer.";
           tone := positive |} insightsList
    else
      addInsight
        {| title := at_index warningPhrases 1;
           description :=
             lit "Add dependencies, teammates, or previous attempts so others can avoid redundant suggestions.";
           tone := warning |} insightsList in
  let insightsList :=
    if (10 <? length (trim (goal s)))%nat then
      addInsight
        {| title := at_index positivePhrases 2;
           description :=
             lit "Defining success helps others tailor advice to your expectations.";
           tone := positive |} insightsList
    else
      addInsight
        {| title := at_index warningPhrases 2;
           description :=
             lit "Think about the impact you want. Are you looking for a decision, a workaround, or validation?";
           tone := warning |} insightsList in
  let insightsList :=
    if (5 <? length (trim (constraints s)))%nat then
      addInsight
        {| title := at_index positivePhrases 3;
           description :=
             lit "Knowing constraints early reduces back-and-forth clarifications.";
           tone := positive |} insightsList
    else
      addInsight
        {| title := at_index warningPhrases 3;
           description :=
             lit "Call out time limits, resources, or approvals you need. It sets expectations for possible answers.";
           tone := warning |} insightsList in
  insightsList.

(** Lines 145-163. *)
Definition prompt_unlock : jsstring :=
  lit "What would solving this unlock for you or your team?".
Definition prompt_sign_off : jsstring :=
  lit "Who needs to sign off once you have an answer?".
Definition prompt_tried : jsstring :=
  lit "What have you already tried or considered?".
Definition prompt_done : jsstring :=
  lit "How will you know you're done?".
Definition prompt_limits : jsstring :=
  lit "Are there deadlines or tools that limit your options?".

(** [prompts.push(a, b, ...)]. *)
Definition push (items : list jsstring) (prompts : list jsstring)
  : list jsstring :=
  prompts ++ items.

Definition recommendedPrompts (s : FormState) : list jsstring :=
  let prompts : list jsstring := [] in
  let prompts :=
    if (0 <? length (question s))%nat
    then push [prompt_unlock; prompt_sign_off] prompts else prompts in
  let prompts :=
    if negb (truthy (background s)) then push [prompt_tried] prompts
    else prompts in
  let prompts :=
    if negb (truthy (goal s)) then push [prompt_done] prompts else prompts in
  let prompts :=
    if negb (truthy (constraints s)) then push [prompt_limits] prompts
    else prompts in
  slice prompts 0 4.

(** Lines 165-174.  An array element is a string or [undefined];
    [filter(Boolean)] keeps the truthy ones, that is the non-empty strings. *)
Definition filter_Boolean (xs : list (option jsstring)) : list jsstring :=
  flat_map
    (fun x =>
       match x with
       | Some str => if truthy str then [str] else []
       | None => []
       end) xs.

Definition newline : jsstring := [10%N].

Definition formattedSummary (s : FormState) : jsstring :=
  let lines :=
    filter_Boolean
      [ Some (lit "🧠 Question: " ++ or_else (question s) (lit "—"));
        Some (lit "📚 Background: " ++ or_else (background s) (lit "—"));
        Some (lit "🎯 Desired outcome: " ++ or_else (goal s) (lit "—"));
        Some (lit "⏱️ Constraints: " ++ or_else (constraints s) (lit "—"));
        if (0 <? length (keywords s))%nat
        then Some (lit "🏷️ Keywords: " ++ join (lit ", ") (keywords s))
        else None ] in
  join newline lines.

(** Lines 186-192. *)
Definition toggleKeyword_update (keyword : jsstring) (prev : list jsstring)
  : list jsstring :=
  if includes prev keyword
  then filter (fun item => negb (streq item keyword)) prev
  else prev ++ [keyword].

Definition toggleKeyword (keyword : jsstring) (s : FormState) : FormState :=
  setKeywords (toggleKeyword_update keyword) s.

(** ** Effects: clipboard, timers, console

    What [handleCopy] touches besides the React state: the clock, the
    pending [setTimeout] callbacks and the console.  Every callback the
    component schedules is [() => setCopied(false)], so a pending timer is
    represented by the time at which it is due (milliseconds). *)

Definition error := jsstring.

Record World := {
  ui : FormState;
  now : N;
  timers : list N;
  console : list (jsstring * error)
}.

Definition initialWorld : World :=
  {| ui := initialState; now := 0%N; timers := []; console := [] |}.

(** A small state-and-exception monad for handler bodies. *)
Inductive completion (A : Type) : Type :=
| Normal (a : A)
| Throw (e : error).

Arguments Normal {A} a.
Arguments Throw {A} e.

Definition Eff (A : Type) : Type := World -> completion A * World.

Definition ret {A : Type} (a : A) : Eff A := fun w => (Normal a, w).

Definition bind {A B : Type} (c : Eff A) (k : A -> Eff B) : Eff B :=
  fun w =>
    match c w with
    | (Normal a, w') => k a w'
    | (Throw e, w') => (Throw e, w')
    end.

(** [try { body } catch (error) { handler(error) }]. *)
Definition try_catch {A : Type} (body : Eff A) (handler : error -> Eff A)
  : Eff A :=
  fun w =>
    match body w with
    | (Normal a, w') => (Normal a, w')
    | (Throw e, w') => handler e w'
    end.

Declare Scope eff_scope.
Delimit Scope eff_scope with eff.
Notation "x <- c ;; k" := (bind c (fun x => k))
  (at level 61, c at next level, right associativity) : eff_scope.
Notation "c ;; k" := (bind c (fun _ => k))
  (at level 61, right associativity) : eff_scope.

Definition render : Eff FormState := fun w => (Normal (ui w), w).

Definition update (f : FormState -> FormState) : Eff unit :=
  fun w =>
    (Normal tt,
     {| ui := f (ui w); now := now w; timers := timers w;
        console := console w |}).

(** [setTimeout(() => setCopied(false), delay)]: nothing is cancelled, the
    new callback joins the pending ones. *)
Definition setTimeout_reset (delay : N) : Eff unit :=
  fun w =>
    (Normal tt,
     {| ui := ui w; now := now w; timers := timers w ++ [(now w + delay)%N];
        console := console w |}).

Definition console_error (msg : jsstring) (e : error) : Eff unit :=
  fun w =>
    (Normal tt,
     {| ui := ui w; now := now w; timers := timers w;
        console := console w ++ [(msg, e)] |}).

(** Outcome of [await navigator.clipboard.writeText(text)]: the promise is
    fulfilled, or the expression throws inside the [try] block, either
    because the promise is rejected or because the call itself throws (no
    clipboard capability). *)
Inductive clipboard_result := Fulfilled | Rejected (e : error).

Definition writeText (o : clipboard_result) (text : jsstring) : Eff unit :=
  fun w =>
    match o with
    | Fulfilled => (Normal tt, w)
    | Rejected e => (Throw e, w)
    end.

(** Lines 176-184.  The handler changes nothing before the [await], so it
    is run as one step, at the time the write settles; the text handed to
    the clipboard is the summary of the render the handler belongs to. *)
Definition handleCopy (o : clipboard_result) : Eff unit :=
  try_catch
    (s <- render ;;
     writeText o (formattedSummary s) ;;
     update (setCopied true) ;;
     setTimeout_reset 2400)%eff
    (fun error => console_error (lit "Failed to copy summary") error).

(** ** Events

    The operations the component offers: the [onChange] of a field, a step
    button, a keyword button, the copy button (with the outcome of the
    clipboard write), and the passing of time. *)

Inductive event :=
| Change (k : StepKey) (value : jsstring)
| GoTo (k : StepKey)
| Toggle (keyword : jsstring)
| Copy (o : clipboard_result)
| Elapse (dt : N).

Definition setField (k : StepKey) : jsstring -> FormState -> FormState :=
  match k with
  | Kquestion => setQuestion
  | Kbackground => setBackground
  | Kgoal => setGoal
  | Kconstraints => setConstraints
  end.

Definition exec (c : Eff unit) (w : World) : World := snd (c w).

(** The clock moves on by [dt]; every timer that has come due runs its
    callback and leaves the pending list.  A callback is taken to run as
    soon as its delay has passed, the earliest the browser may run it. *)
Definition elapse (dt : N) (w : World) : World :=
  let t := (now w + dt)%N in
  let due := filter (fun d => (d <=? t)%N) (timers w) in
  {| ui := fold_left (fun s _ => setCopied false s) due (ui w);
     now := t;
     timers := filter (fun d => (t <? d)%N) (timers w);
     console := console w |}.

Definition step (w : World) (e : event) : World :=
  match e with
  | Change k value => exec (update (setField k value)) w
  | GoTo k => exec (update (setStage k)) w
  | Toggle keyword => exec (update (toggleKeyword keyword)) w
  | Copy o => exec (handleCopy o) w
  | Elapse dt => elapse dt w
  end.

Definition run (w : World) (trace : list event) : World :=
  fold_left step trace w.

Definition reachable (w : World) : Prop :=
  exists trace, w = run initialWorld trace.

(** ** The derivation rules as the specification words them *)

Definition filled_after_trim (field : jsstring) : bool :=
  (0 <? length (trim field))%nat.

(** Number of fields among question, background, goal and constraints
    whose trimmed length is greater than zero. *)
Definition non_empty_count (s : FormState) : nat :=
  (Nat.b2n (filled_after_trim (question s))
   + Nat.b2n (filled_after_trim (background s))
   + Nat.b2n (filled_after_trim (goal s))
   + Nat.b2n (filled_after_trim (constraints s)))%nat.

(** The insight of a field: positive strictly above the threshold, warning
    otherwise, titled with the phrase at the field's position. *)
Definition insight_of (i : nat) (threshold : nat) (field : jsstring)
  (x : Insight) : Prop :=
  (tone x = positive <-> (threshold < length (trim field))%nat)
  /\ (tone x = warning <-> (length (trim field) <= threshold)%nat)
  /\ title x = at_index (match tone x with
                         | positive => positivePhrases
                         | warning => warningPhrases
                         end) i.

(** Tone of the insight at position [i]. *)
Definition tone_at (i : nat) (s : FormState) : option Tone :=
  option_map tone (nth_error (insights s) i).

(** The four prompt rules, in order, on raw lengths. *)
Definition prompt_rules (s : FormState) : list jsstring :=
  (if (0 <? length (question s))%nat
   then [prompt_unlock; prompt_sign_off] else [])
  ++ (if (length (background s) =? 0)%nat then [prompt_tried] else [])
  ++ (if (length (goal s) =? 0)%nat then [prompt_done] else [])
  ++ (if (length (constraints s) =? 0)%nat then [prompt_limits] else []).

(** A field that is not empty but consists of white space only. *)
Definition whitespace_only (field : jsstring) : Prop :=
  (0 < length field)%nat /\ length (trim field) = 0%nat.

(** A field, or the em-dash when its raw length is zero. *)
Definition field_or_dash (field : jsstring) : jsstring :=
  if (length field =? 0)%nat then lit "—" else field.

Definition summary_lines (s : FormState) : list jsstring :=
  [ lit "🧠 Question: " ++ field_or_dash (question s);
    lit "📚 Background: " ++ field_or_dash (background s);
    lit "🎯 Desired outcome: " ++ field_or_dash (goal s);
    lit "⏱️ Constraints: " ++ field_or_dash (constraints s) ]
  ++ match keywords s with
     | [] => []
     | _ :: _ => [lit "🏷️ Keywords: " ++ join (lit ", ") (keywords s)]
     end.

(** States that agree on everything but [stage]. *)
Definition same_but_stage (s1 s2 : FormState) : Prop :=
  question s1 = question s2 /\ background s1 = background s2
  /\ goal s1 = goal s2 /\ constraints s1 = constraints s2
  /\ keywords s1 = keywords s2 /\ copied s1 = copied s2.

(** "At most one reset timer is ever pending." *)
Definition single_pending_reset : Prop :=
  forall trace : list event,
    (length (timers (run initialWorld trace)) <= 1)%nat.

(** "After a successful copy, [copied] stays true for the full delay
    measured from that copy." *)
Definition copied_for_full_delay : Prop :=
  forall (trace : list event) (dt : N),
    (dt < 2400)%N ->
    copied (ui (run initialWorld (trace ++ [Copy Fulfilled; Elapse dt])))
    = true.

(** ** What [Home] renders

    The parts of the returned tree that depend on the state: the step
    buttons, the field card of the current step, the keyword buttons, the
    prompt panel, the summary box, the copy button and the footer dots. *)

Module StepInfo.
Record t := { key : StepKey; title : jsstring; description : jsstring }.
End StepInfo.

(** Lines 15-36. *)
Definition steps : list StepInfo.t :=
  [ {| StepInfo.key := Kquestion;
       StepInfo.title := lit "Your Question";
       StepInfo.description :=
         lit "State the question clearly so we can unpack it." |};
    {| StepInfo.key := Kbackground;
       StepInfo.title := lit "Background";
       StepInfo.description :=
         lit "Add relevant context, history, or dependencies." |};
    {| StepInfo.key := Kgoal;
       StepInfo.title := lit "Desired Outcome";
       StepInfo.description :=
         lit "Explain what a successful answer or solution looks like." |};
    {| StepInfo.key := Kconstraints;
       StepInfo.title := lit "Constraints";
       StepInfo.description :=
         lit "List any limits such as time, tools, or stakeholders." |} ].

(** [a === b] on step keys. *)
Definition StepKey_eqb (a b : StepKey) : bool :=
  match a, b with
  | Kquestion, Kquestion | Kbackground, Kbackground
  | Kgoal, Kgoal | Kconstraints, Kconstraints => true
  | _, _ => false
  end.

(** [xs.findIndex(p)]: the first index at which [p] holds, or -1. *)
Fixpoint findIndex_from {A : Type} (p : A -> bool) (xs : list A) (i : Z) : Z :=
  match xs with
  | [] => (-1)%Z
  | x :: r => if p x then i else findIndex_from p r (i + 1)%Z
  end.

Definition findIndex {A : Type} (p : A -> bool) (xs : list A) : Z :=
  findIndex_from p xs 0%Z.

(** [xs.map((x, index) => f(x, index))]. *)
Fixpoint mapi_from {A B : Type} (f : A -> nat -> B) (xs : list A) (i : nat)
  : list B :=
  match xs with
  | [] => []
  | x :: r => f x i :: mapi_from f r (S i)
  end.

Definition mapi {A B : Type} (f : A -> nat -> B) (xs : list A) : list B :=
  mapi_from f xs 0.

(** [cond && <Element />] inside a list of children: the element or
    nothing. *)
Definition when {A : Type} (cond : bool) (x : A) : list A :=
  if cond then [x] else [].

(** Line 194. *)
Definition activeStepIndex (s : FormState) : Z :=
  findIndex (fun step => StepKey_eqb (StepInfo.key step) (stage s)) steps.

(** Lines 242-262: one button per step. *)
Record StepButton := {
  step_key : StepKey;
  step_onClick : FormState -> FormState;
  step_highlighted : bool;
  step_number : nat
}.

Definition stepButtons (s : FormState) : list StepButton :=
  mapi
    (fun step index =>
       {| step_key := StepInfo.key step;
          step_onClick := setStage (StepInfo.key step);
          step_highlighted := StepKey_eqb (stage s) (StepInfo.key step);
          step_number := index + 1 |})
    steps.

(** Lines 439-445 and 275-307: the props of the field cards that are
    rendered; [autoFocus] is absent on all but the first. *)
Record FieldCardProps := {
  label : jsstring;
  placeholder : jsstring;
  value : jsstring;
  onChange : jsstring -> FormState -> FormState;
  autoFocus : bool
}.

Definition fieldCards (s : FormState) : list FieldCardProps :=
  when (StepKey_eqb (stage s) Kquestion)
    {| label := lit "What question are you trying to answer?";
       placeholder :=
         lit "Explain what you're stuck on, what decision you need, or what you want to understand.";
       value := question s; onChange := setQuestion; autoFocus := true |}
  ++ when (StepKey_eqb (stage s) Kbackground)
       {| label := lit "What's the background?";
          placeholder :=
            lit "Share relevant context, prior attempts, stakeholders involved, or anything that sets the scene.";
          value := background s; onChange := setBackground;
          autoFocus := false |}
  ++ when (StepKey_eqb (stage s) Kgoal)
       {| label := lit "What does success look like?";
          placeholder :=
            lit "Describe how you'll know you got the answer you need. What outcome are you aiming for?";
          value := goal s; onChange := setGoal; autoFocus := false |}
  ++ when (StepKey_eqb (stage s) Kconstraints)
       {| label := lit "Are there constraints?";
          placeholder :=
            lit "List deadlines, resources, technical limits, or other constraints that shape potential solutions.";
          value := constraints s; onChange := setConstraints;
          autoFocus := false |}.

(** Lines 320-335: the quick keywords. *)
Definition keywordOptions : list jsstring :=
  [ lit "frontend"; lit "backend"; lit "product"; lit "strategy";
    lit "process"; lit "people" ].

Record KeywordButton := {
  keyword_text : jsstring;
  keyword_onClick : FormState -> FormState;
  keyword_selected : bool
}.

Definition keywordButtons (s : FormState) : list KeywordButton :=
  map
    (fun keyword =>
       {| keyword_text := keyword;
          keyword_onClick := toggleKeyword keyword;
          keyword_selected := includes (keywords s) keyword |})
    keywordOptions.

(** Lines 373-388: the list of prompts, each keyed by its own text, or the
    completion message. *)
Inductive PromptsPanel :=
| PromptList (items : list jsstring)
| AllSet (message : jsstring).

Definition promptsPanel (s : FormState) : PromptsPanel :=
  if (0 <? length (recommendedPrompts s))%nat
  then PromptList (recommendedPrompts s)
  else AllSet (lit "You're all set! Your question is ready to share.").

(** Lines 398-400. *)
Definition summaryBox (s : FormState) : jsstring :=
  or_else (formattedSummary s)
    (lit "Start filling out the fields to see your summary.").

(** Line 410. *)
Definition copyLabel (s : FormState) : jsstring :=
  if copied s then lit "Copied!" else lit "Copy summary".

(** Lines 422-431: a footer dot is wide and coloured when its index is at
    most the index of the current step. *)
Definition footerDots (s : FormState) : list bool :=
  mapi (fun _ index => (Z.of_nat index <=? activeStepIndex s)%Z) steps.

(** ** What the user can do

    Through the rendered page the user clicks the i-th step button, types
    into the field card on display, clicks the i-th keyword button, clicks
    the copy button, or lets time pass. *)

Inductive gesture :=
| ClickStep (i : nat)
| TypeText (text : jsstring)
| ClickKeyword (i : nat)
| ClickCopy (o : clipboard_result)
| Wait (dt : N).

Definition perform (w : World) (g : gesture) : World :=
  match g with
  | ClickStep i =>
    match nth_error (stepButtons (ui w)) i with
    | Some b => exec (update (step_onClick b)) w
    | None => w
    end
  | TypeText text =>
    match fieldCards (ui w) with
    | card :: _ => exec (update (onChange card text)) w
    | [] => w
    end
  | ClickKeyword i =>
    match nth_error (keywordButtons (ui w)) i with
    | Some b => exec (update (keyword_onClick b)) w
    | None => w
    end
  | ClickCopy o => exec (handleCopy o) w
  | Wait dt => elapse dt w
  end.

Definition session (gs : list gesture) : World :=
  fold_left perform gs initialWorld.

(** The step a field belongs to, and the field of a step. *)
Definition field_of (k : StepKey) (s : FormState) : jsstring :=
  match k with
  | Kquestion => question s
  | Kbackground => background s
  | Kgoal => goal s
  | Kconstraints => constraints s
  end.

Definition step_index (k : StepKey) : nat :=
  match k with
  | Kquestion => 0
  | Kbackground => 1
  | Kgoal => 2
  | Kconstraints => 3
  end.

(** The shape of the prompt rules, over any five prompts and the outcomes
    of the four tests. *)
Definition rules_of (a b c d e : jsstring) (q bg g cs : bool)
  : list jsstring :=
  (if q then [a; b] else [])
  ++ (if bg then [c] else [])
  ++ (if g then [d] else [])
  ++ (if cs then [e] else []).

(** The pending resets are in the order in which they are due, and each
    is due after the present moment and no more than 2400 ms from it. *)
Definition timers_ok (w : World) : Prop :=
  StronglySorted N.le (timers w)
  /\ Forall (fun d => (now w < d <= now w + 2400)%N) (timers w).

(** The part of the state that the form shows and edits. *)
Definition form_of (s : FormState)
  : StepKey * jsstring * jsstring * jsstring * jsstring * list jsstring :=
  (stage s, question s, background s, goal s, constraints s, keywords s).

(** The errors of the failed copies of a trace, in order. *)
Definition rejections (trace : list event) : list error :=
  flat_map (fun e => match e with
                     | Copy (Rejected err) => [err]
                     | _ => []
                     end) trace.

(** Number of positive insights. *)
Definition positive_count (s : FormState) : nat :=
  length (filter (fun x => match tone x with
                           | positive => true
                           | warning => false
                           end) (insights s)).

(** * Properties *)

(** ** String helpers *)

Lemma streq_true (a b : jsstring) : streq a b = true <-> a = b.
Proof. unfold streq. destruct (jsstring_eq_dec a b); split; congruence. Qed.

Lemma streq_false (a b : jsstring) : streq a b = false <-> a <> b.
Proof. unfold streq. destruct (jsstring_eq_dec a b); split; congruence. Qed.

Lemma truthy_length (s : jsstring) : truthy s = (0 <? length s)%nat.
Proof. destruct s; reflexivity. Qed.

Lemma falsy_length (s : jsstring) : negb (truthy s) = (length s =? 0)%nat.
Proof. destruct s; reflexivity. Qed.

Lemma truthy_app (a b : jsstring) : truthy a = true -> truthy (a ++ b) = true.
Proof. destruct a; simpl; congruence. Qed.

Lemma or_else_dash (field : jsstring) :
  or_else field (lit "—") = field_or_dash field.
Proof. destruct field; reflexivity. Qed.

Lemma includes_In (xs : list jsstring) (k : jsstring) :
  includes xs k = true <-> In k xs.
Proof.
  unfold includes. rewrite existsb_exists. split.
  - intros [x [Hx Heq]]. apply streq_true in Heq. now subst.
  - intros H. exists k. split; [assumption | now apply streq_true].
Qed.

Lemma slice_from_zero {A : Type} (xs : list A) (n : nat) :
  slice xs 0 n = firstn n xs.
Proof. unfold slice. now rewrite Nat.sub_0_r. Qed.

Example lit_ascii : lit "Hi" = [72; 105]%N.
Proof. reflexivity. Qed.

Example lit_em_dash : lit "—" = [0x2014]%N.
Proof. reflexivity. Qed.

Example lit_brain : lit "🧠" = [0xD83E; 0xDDE0]%N.
Proof. reflexivity. Qed.

Example lit_stopwatch : lit "⏱️" = [0x23F1; 0xFE0F]%N.
Proof. reflexivity. Qed.

Example trim_both_ends : trim (9 :: 32 :: lit "a b" ++ [0x00A0; 10])%N = lit "a b".
Proof. reflexivity. Qed.

Example trim_all_blank : trim (lit "   ") = [].
Proof. reflexivity. Qed.

(** ** Progress *)

Lemma Math_round_quarters (n : nat) :
  (n <= 4)%nat ->
  Math_round (inject_Z (Z.of_nat n) / inject_Z 4 * inject_Z 100)
  = (25 * Z.of_nat n)%Z.
Proof.
  intros H.
  destruct n as [|[|[|[|[|n]]]]]; try reflexivity; lia.
Qed.

Lemma non_empty_count_le (s : FormState) : (non_empty_count s <= 4)%nat.
Proof.
  unfold non_empty_count.
  destruct (filled_after_trim (question s)), (filled_after_trim (background s)),
    (filled_after_trim (goal s)), (filled_after_trim (constraints s));
    simpl; lia.
Qed.

Lemma filled_is_count (s : FormState) :
  length (filter (fun field => (0 <? length (trim field))%nat)
            [question s; background s; goal s; constraints s])
  = non_empty_count s.
Proof.
  unfold non_empty_count, filled_after_trim. simpl.
  destruct (0 <? length (trim (question s)))%nat,
    (0 <? length (trim (background s)))%nat,
    (0 <? length (trim (goal s)))%nat,
    (0 <? length (trim (constraints s)))%nat; reflexivity.
Qed.

(** C1: the progress score is [round(count / 4 * 100)] for the number
    [count] of fields that are non-empty after trimming, which is
    [25 * count], hence one of 0, 25, 50, 75, 100. *)
Theorem progress_quarters (s : FormState) :
  progress s
  = Math_round (inject_Z (Z.of_nat (non_empty_count s)) / inject_Z 4
                * inject_Z 100)
  /\ progress s = (25 * Z.of_nat (non_empty_count s))%Z
  /\ In (progress s) [0; 25; 50; 75; 100]%Z.
Proof.
  assert (Hdef : progress s
                 = Math_round (inject_Z (Z.of_nat (non_empty_count s))
                               / inject_Z 4 * inject_Z 100)).
  { unfold progress. cbv zeta. rewrite filled_is_count. reflexivity. }
  pose proof (non_empty_count_le s) as Hle.
  assert (H25 : progress s = (25 * Z.of_nat (non_empty_count s))%Z).
  { rewrite Hdef. now apply Math_round_quarters. }
  repeat split; try assumption.
  rewrite H25.
  destruct (non_empty_count s) as [|[|[|[|[|n]]]]]; simpl; try lia; tauto.
Qed.

(** ** Insights *)

Lemma insight_of_positive (i threshold : nat) (field d : jsstring) :
  (threshold <? length (trim field))%nat = true ->
  insight_of i threshold field
    {| title := at_index positivePhrases i; description := d;
       tone := positive |}.
Proof.
  intros H. apply Nat.ltb_lt in H. unfold insight_of; simpl.
  repeat split; intros; try discriminate; try assumption; try reflexivity; lia.
Qed.

Lemma insight_of_warning (i threshold : nat) (field d : jsstring) :
  (threshold <? length (trim field))%nat = false ->
  insight_of i threshold field
    {| title := at_index warningPhrases i; description := d;
       tone := warning |}.
Proof.
  intros H. apply Nat.ltb_ge in H. unfold insight_of; simpl.
  repeat split; intros; try discriminate; try assumption; try reflexivity; lia.
Qed.

Create HintDb insight.
#[local] Hint Resolve insight_of_positive insight_of_warning : insight.

Lemma insights_four (s : FormState) :
  exists iq ib ig ic : Insight,
    insights s = [iq; ib; ig; ic]
    /\ insight_of 0 10 (question s) iq
    /\ insight_of 1 20 (background s) ib
    /\ insight_of 2 10 (goal s) ig
    /\ insight_of 3 5 (constraints s) ic.
Proof.
  unfold insights, addInsight.
  destruct (10 <? length (trim (question s)))%nat eqn:Hq;
    destruct (20 <? length (trim (background s)))%nat eqn:Hb;
    destruct (10 <? length (trim (goal s)))%nat eqn:Hg;
    destruct (5 <? length (trim (constraints s)))%nat eqn:Hc;
    cbv zeta; simpl app;
    do 4 eexists; (split; [reflexivity | auto 6 with insight]).
Qed.

(** C2: the insights are always four, in the order question, background,
    goal, constraints; each is positive exactly when the trimmed length of
    its field strictly exceeds 10, 20, 10, 5 respectively, and warning
    otherwise, so a trimmed length equal to the threshold gives warning. *)
Theorem insights_thresholds (s : FormState) :
  length (insights s) = 4%nat
  /\ exists iq ib ig ic : Insight,
       insights s = [iq; ib; ig; ic]
       /\ insight_of 0 10 (question s) iq
       /\ insight_of 1 20 (background s) ib
       /\ insight_of 2 10 (goal s) ig
       /\ insight_of 3 5 (constraints s) ic.
Proof.
  pose proof (insights_four s) as H. split; [| exact H].
  destruct H as (iq & ib & ig & ic & E & _). now rewrite E.
Qed.

Example question_of_ten_warns :
  tone_at 0 (setQuestion (lit "abcdefghij") initialState) = Some warning
  /\ tone_at 0 (setQuestion (lit "  abcdefghij  ") initialState) = Some warning
  /\ tone_at 0 (setQuestion (lit "abcdefghijk") initialState) = Some positive.
Proof. repeat split; reflexivity. Qed.

Example constraints_of_five_warn :
  tone_at 3 (setConstraints (lit "12345") initialState) = Some warning
  /\ tone_at 3 (setConstraints (lit "123456") initialState) = Some positive.
Proof. repeat split; reflexivity. Qed.

Lemma tone_at_warning (s : FormState) :
  (length (trim (question s)) = 0%nat -> tone_at 0 s = Some warning)
  /\ (length (trim (background s)) = 0%nat -> tone_at 1 s = Some warning)
  /\ (length (trim (goal s)) = 0%nat -> tone_at 2 s = Some warning)
  /\ (length (trim (constraints s)) = 0%nat -> tone_at 3 s = Some warning).
Proof.
  destruct (insights_four s)
    as (iq & ib & ig & ic & E & (_ & Hq & _) & (_ & Hb & _) & (_ & Hg & _)
        & (_ & Hc & _)).
  unfold tone_at. rewrite E. simpl.
  repeat split; intros H; f_equal;
    [apply Hq | apply Hb | apply Hg | apply Hc]; lia.
Qed.

(** ** Recommended prompts *)

Lemma recommendedPrompts_rules (s : FormState) :
  recommendedPrompts s = firstn 4 (prompt_rules s).
Proof.
  unfold recommendedPrompts, prompt_rules, push. cbv zeta.
  rewrite slice_from_zero, !falsy_length.
  destruct (0 <? length (question s))%nat, (length (background s) =? 0)%nat,
    (length (goal s) =? 0)%nat, (length (constraints s) =? 0)%nat;
    reflexivity.
Qed.

Lemma prompts_distinct :
  NoDup [prompt_unlock; prompt_sign_off; prompt_tried; prompt_done;
         prompt_limits].
Proof.
  repeat constructor; simpl; intros H;
    repeat (destruct H as [H | H]; [vm_compute in H; discriminate H |]);
    exact H.
Qed.

Lemma length_zero_nil (f : jsstring) : length f = 0%nat <-> f = [].
Proof. destruct f; simpl; split; intros H; congruence. Qed.

Lemma length_pos_cons (f : jsstring) :
  (0 < length f)%nat <-> exists c r, f = c :: r.
Proof.
  destruct f as [|c r]; simpl; split.
  - lia.
  - intros (c & r & H). discriminate H.
  - intros _. now exists c, r.
  - intros _. lia.
Qed.

(** Case analysis on the raw emptiness of the four fields, which is all
    the prompt rules look at. *)
Ltac by_raw_emptiness s :=
  unfold prompt_rules;
  destruct (question s) as [|? ?], (background s) as [|? ?],
    (goal s) as [|? ?], (constraints s) as [|? ?];
  cbn [length Nat.ltb Nat.leb Nat.eqb app firstn].

Ltac no_such_prompt H :=
  repeat (destruct H as [H | H]; [vm_compute in H; discriminate H |]);
  try contradiction.

(** C3: the prompt list is the concatenation of the four rules, in order,
    cut to its first four entries, so it never has more than four; the
    rules test raw length, so a field of white space only counts as filled
    for them while its insight is the warning of an empty field. *)
Theorem recommendedPrompts_spec (s : FormState) :
  recommendedPrompts s = firstn 4 (prompt_rules s)
  /\ (length (recommendedPrompts s) <= 4)%nat
  /\ (whitespace_only (question s) ->
      firstn 2 (recommendedPrompts s) = [prompt_unlock; prompt_sign_off]
      /\ tone_at 0 s = Some warning)
  /\ (whitespace_only (background s) ->
      ~ In prompt_tried (recommendedPrompts s)
      /\ tone_at 1 s = Some warning)
  /\ (whitespace_only (goal s) ->
      ~ In prompt_done (recommendedPrompts s)
      /\ tone_at 2 s = Some warning)
  /\ (whitespace_only (constraints s) ->
      ~ In prompt_limits (recommendedPrompts s)
      /\ tone_at 3 s = Some warning).
Proof.
  pose proof (tone_at_warning s) as (Tq & Tb & Tg & Tc).
  rewrite recommendedPrompts_rules.
  split; [reflexivity |].
  split; [apply firstn_le_length |].
  repeat split; try (destruct H as [Hraw Htrim]; auto; fail);
    destruct H as [Hraw _]; revert Hraw.
  - by_raw_emptiness s; intros Hraw; solve [lia | reflexivity].
  - by_raw_emptiness s; intros Hraw H; solve [lia | no_such_prompt H].
  - by_raw_emptiness s; intros Hraw H; solve [lia | no_such_prompt H].
  - by_raw_emptiness s; intros Hraw H; solve [lia | no_such_prompt H].
Qed.

Example blank_background_is_filled_for_prompts :
  let s := setBackground (lit "   ") initialState in
  recommendedPrompts s = [prompt_done; prompt_limits]
  /\ tone_at 1 s = Some warning
  /\ progress s = 0%Z.
Proof. repeat split; reflexivity. Qed.

Example all_fields_empty_prompts :
  recommendedPrompts initialState = [prompt_tried; prompt_done; prompt_limits].
Proof. reflexivity. Qed.

Example only_question_prompts :
  recommendedPrompts (setQuestion (lit "Why is latency high?") initialState)
  = [prompt_unlock; prompt_sign_off; prompt_tried; prompt_done].
Proof. reflexivity. Qed.

(** C10: the prompt list is empty exactly when the question has raw length
    zero and background, goal and constraints all have raw length greater
    than zero; with a non-empty question it starts with the two
    question prompts, so it is never empty then. *)
Theorem recommendedPrompts_empty_iff (s : FormState) :
  (recommendedPrompts s = []
   <-> length (question s) = 0%nat
       /\ (0 < length (background s))%nat
       /\ (0 < length (goal s))%nat
       /\ (0 < length (constraints s))%nat)
  /\ ((0 < length (question s))%nat ->
      firstn 2 (recommendedPrompts s) = [prompt_unlock; prompt_sign_off]
      /\ recommendedPrompts s <> []).
Proof.
  rewrite recommendedPrompts_rules.
  split; [split |].
  - by_raw_emptiness s; intros H;
      solve [discriminate H | repeat split; lia].
  - by_raw_emptiness s; intros (Hq & Hb & Hg & Hc);
      solve [lia | discriminate | reflexivity].
  - by_raw_emptiness s; intros Hq;
      solve [lia | split; [reflexivity | discriminate]].
Qed.

(** ** Summary *)

Lemma filter_Boolean_keep (x : jsstring) (xs : list (option jsstring)) :
  truthy x = true -> filter_Boolean (Some x :: xs) = x :: filter_Boolean xs.
Proof. intros H. unfold filter_Boolean. simpl. now rewrite H. Qed.

Lemma filter_Boolean_undefined (xs : list (option jsstring)) :
  filter_Boolean (None :: xs) = filter_Boolean xs.
Proof. reflexivity. Qed.

Lemma labelled_line_truthy (label : string) (value : jsstring) :
  truthy (lit label) = true -> truthy (lit label ++ value) = true.
Proof. apply truthy_app. Qed.

Lemma formattedSummary_lines (s : FormState) :
  formattedSummary s = join newline (summary_lines s).
Proof.
  unfold formattedSummary, summary_lines. cbv zeta.
  rewrite !or_else_dash.
  rewrite !filter_Boolean_keep by (apply labelled_line_truthy; reflexivity).
  destruct (keywords s) as [|k ks].
  - reflexivity.
  - cbn [length Nat.ltb Nat.leb].
    rewrite filter_Boolean_keep by (apply labelled_line_truthy; reflexivity).
    reflexivity.
Qed.

(** C4: the summary is the four field lines joined by newlines, an empty
    field (raw length zero) shown as the em-dash, followed by the keyword
    line only when there are keywords, which it lists in stored order
    separated by a comma and a space; the scenario with question X and
    nothing else filled gives exactly the four lines. *)
Theorem formattedSummary_spec (s : FormState) :
  formattedSummary s = join newline (summary_lines s)
  /\ (keywords s = [] ->
      formattedSummary s
      = lit "🧠 Question: " ++ field_or_dash (question s) ++ newline
        ++ lit "📚 Background: " ++ field_or_dash (background s) ++ newline
        ++ lit "🎯 Desired outcome: " ++ field_or_dash (goal s) ++ newline
        ++ lit "⏱️ Constraints: " ++ field_or_dash (constraints s))
  /\ (keywords s <> [] ->
      formattedSummary s
      = lit "🧠 Question: " ++ field_or_dash (question s) ++ newline
        ++ lit "📚 Background: " ++ field_or_dash (background s) ++ newline
        ++ lit "🎯 Desired outcome: " ++ field_or_dash (goal s) ++ newline
        ++ lit "⏱️ Constraints: " ++ field_or_dash (constraints s) ++ newline
        ++ lit "🏷️ Keywords: " ++ join (lit ", ") (keywords s))
  /\ (question s = lit "X" -> background s = [] -> goal s = []
      -> constraints s = [] -> keywords s = [] ->
      formattedSummary s
      = lit "🧠 Question: X" ++ newline ++ lit "📚 Background: —" ++ newline
        ++ lit "🎯 Desired outcome: —" ++ newline ++ lit "⏱️ Constraints: —").
Proof.
  rewrite formattedSummary_lines. unfold summary_lines.
  split; [reflexivity |].
  split; [| split].
  - intros ->. cbn [app join]. now rewrite <- !app_assoc.
  - destruct (keywords s) as [|k ks]; [congruence |]. intros _.
    cbn [app join]. now rewrite <- !app_assoc.
  - intros -> -> -> -> ->. reflexivity.
Qed.

Example summary_keyword_line :
  formattedSummary
    (toggleKeyword (lit "product") (toggleKeyword (lit "frontend") initialState))
  = lit "🧠 Question: —" ++ newline ++ lit "📚 Background: —" ++ newline
    ++ lit "🎯 Desired outcome: —" ++ newline ++ lit "⏱️ Constraints: —"
    ++ newline ++ lit "🏷️ Keywords: frontend, product".
Proof. reflexivity. Qed.

(** ** Keyword toggle *)

Lemma filter_other_In (k x : jsstring) (l : list jsstring) :
  In x (filter (fun item => negb (streq item k)) l) <-> In x l /\ x <> k.
Proof.
  rewrite filter_In. rewrite negb_true_iff, streq_false. reflexivity.
Qed.

Lemma filter_absent (k : jsstring) (l : list jsstring) :
  ~ In k l -> filter (fun item => negb (streq item k)) l = l.
Proof.
  induction l as [|x l IH]; intros Hk; [reflexivity |].
  simpl in *. destruct (streq x k) eqn:E.
  - apply streq_true in E. tauto.
  - simpl. f_equal. apply IH. tauto.
Qed.

Lemma filter_twice (k : jsstring) (l : list jsstring) :
  filter (fun item => negb (streq item k))
    (filter (fun item => negb (streq item k)) l)
  = filter (fun item => negb (streq item k)) l.
Proof. apply filter_absent. rewrite filter_other_In. tauto. Qed.

Lemma toggle_present (k : jsstring) (l : list jsstring) :
  In k l ->
  toggleKeyword_update k l = filter (fun item => negb (streq item k)) l.
Proof.
  intros H. unfold toggleKeyword_update.
  apply includes_In in H. now rewrite H.
Qed.

Lemma toggle_absent (k : jsstring) (l : list jsstring) :
  ~ In k l -> toggleKeyword_update k l = l ++ [k].
Proof.
  intros H. unfold toggleKeyword_update.
  destruct (includes l k) eqn:E; [| reflexivity].
  apply includes_In in E. contradiction.
Qed.

Lemma toggle_twice_present (k : jsstring) (l : list jsstring) :
  In k l ->
  toggleKeyword_update k (toggleKeyword_update k l)
  = filter (fun item => negb (streq item k)) l ++ [k].
Proof.
  intros H. rewrite (toggle_present k l H).
  apply toggle_absent. rewrite filter_other_In. tauto.
Qed.

Lemma toggle_twice_absent (k : jsstring) (l : list jsstring) :
  ~ In k l -> toggleKeyword_update k (toggleKeyword_update k l) = l.
Proof.
  intros H. rewrite (toggle_absent k l H).
  rewrite toggle_present by (apply in_or_app; right; now left).
  rewrite filter_app. simpl. rewrite (proj2 (streq_true k k) eq_refl). simpl.
  rewrite app_nil_r. now apply filter_absent.
Qed.

(** C5: toggling a keyword twice gives back a list with the original
    members, in which all the other keywords stand in their original
    relative order. *)
Theorem toggle_twice (k : jsstring) (l : list jsstring) :
  let l2 := toggleKeyword_update k (toggleKeyword_update k l) in
  (forall x, In x l2 <-> In x l)
  /\ filter (fun item => negb (streq item k)) l2
     = filter (fun item => negb (streq item k)) l.
Proof.
  cbv zeta. destruct (in_dec jsstring_eq_dec k l) as [Hin | Hout].
  - rewrite (toggle_twice_present k l Hin). split.
    + intros x. rewrite in_app_iff, filter_other_In. simpl.
      destruct (jsstring_eq_dec x k) as [-> | Hne]; intuition congruence.
    + rewrite filter_app, filter_twice. simpl.
      rewrite (proj2 (streq_true k k) eq_refl). simpl. apply app_nil_r.
  - rewrite (toggle_twice_absent k l Hout). split; reflexivity.
Qed.

Example toggle_twice_moves_to_end :
  let l := [lit "frontend"; lit "product"; lit "people"] in
  toggleKeyword_update (lit "frontend") (toggleKeyword_update (lit "frontend") l)
  = [lit "product"; lit "people"; lit "frontend"].
Proof. reflexivity. Qed.

Lemma toggle_NoDup (k : jsstring) (l : list jsstring) :
  NoDup l -> NoDup (toggleKeyword_update k l).
Proof.
  intros Hl. destruct (in_dec jsstring_eq_dec k l) as [Hin | Hout].
  - rewrite (toggle_present k l Hin). now apply NoDup_filter.
  - rewrite (toggle_absent k l Hout).
    apply NoDup_app; [assumption | repeat constructor; intros [] |].
    intros a Ha [<- | []]. contradiction.
Qed.

(** ** The event loop *)

Lemma run_snoc (w : World) (trace : list event) (e : event) :
  run w (trace ++ [e]) = step (run w trace) e.
Proof. unfold run. now rewrite fold_left_app. Qed.

Lemma setField_keywords (k : StepKey) (v : jsstring) (s : FormState) :
  keywords (setField k v s) = keywords s.
Proof. destruct k; reflexivity. Qed.

Lemma setField_copied (k : StepKey) (v : jsstring) (s : FormState) :
  copied (setField k v s) = copied s.
Proof. destruct k; reflexivity. Qed.

Lemma resets_keywords {T : Type} (due : list T) (s : FormState) :
  keywords (fold_left (fun s _ => setCopied false s) due s) = keywords s.
Proof.
  revert s. induction due as [|d due IH]; intros s; simpl; [reflexivity |].
  now rewrite IH.
Qed.

Lemma resets_copied {T : Type} (due : list T) (s : FormState) :
  copied (fold_left (fun s _ => setCopied false s) due s)
  = match due with [] => copied s | _ :: _ => false end.
Proof.
  revert s. induction due as [|d due IH]; intros s; simpl; [reflexivity |].
  rewrite IH. now destruct due.
Qed.

Lemma handleCopy_Rejected (e : error) (w : World) :
  handleCopy (Rejected e) w
  = (Normal tt,
     {| ui := ui w; now := now w; timers := timers w;
        console := console w ++ [(lit "Failed to copy summary", e)] |}).
Proof. reflexivity. Qed.

Lemma handleCopy_Fulfilled (w : World) :
  handleCopy Fulfilled w
  = (Normal tt,
     {| ui := setCopied true (ui w); now := now w;
        timers := timers w ++ [(now w + 2400)%N]; console := console w |}).
Proof. reflexivity. Qed.

Lemma step_keywords (w : World) (e : event) :
  (forall k, e <> Toggle k) ->
  keywords (ui (step w e)) = keywords (ui w).
Proof.
  intros Hne. destruct e as [k v | k | k | o | dt]; simpl.
  - apply setField_keywords.
  - reflexivity.
  - now contradiction (Hne k).
  - destruct o; reflexivity.
  - apply resets_keywords.
Qed.

Lemma step_keywords_NoDup (w : World) (e : event) :
  NoDup (keywords (ui w)) -> NoDup (keywords (ui (step w e))).
Proof.
  intros H. destruct e as [k v | k | k | o | dt];
    try (rewrite step_keywords by discriminate; assumption).
  simpl. now apply toggle_NoDup.
Qed.

(** C6: in every state reachable from the initial one the keyword list is
    free of duplicates; the toggle keeps it so, and no other operation
    changes the list. *)
Theorem keywords_NoDup :
  (forall w, reachable w -> NoDup (keywords (ui w)))
  /\ (forall k l, NoDup l -> NoDup (toggleKeyword_update k l))
  /\ (forall w e, (forall k, e <> Toggle k) ->
                  keywords (ui (step w e)) = keywords (ui w)).
Proof.
  split; [| split; [exact toggle_NoDup | exact step_keywords]].
  intros w [trace ->].
  induction trace as [|e trace IH] using rev_ind.
  - constructor.
  - rewrite run_snoc. now apply step_keywords_NoDup.
Qed.

Lemma keywords_NoDup_witness :
  NoDup
    (keywords
       (ui (run initialWorld
              [Toggle (lit "frontend"); Change Kquestion (lit "Why?");
               Toggle (lit "people"); Toggle (lit "frontend");
               Copy Fulfilled; Toggle (lit "frontend")]))).
Proof.
  apply (proj1 keywords_NoDup). eexists. reflexivity.
Defined.

(** ** Copy handler *)

Lemma handleCopy_returns (o : clipboard_result) (w : World) :
  exists w', handleCopy o w = (Normal tt, w').
Proof. destruct o; eexists; reflexivity. Qed.

Lemma step_copied (w : World) (e : event) :
  copied (ui (step w e)) = true ->
  copied (ui w) = true \/ e = Copy Fulfilled.
Proof.
  destruct e as [k v | k | k | o | dt]; simpl.
  - rewrite setField_copied. tauto.
  - tauto.
  - tauto.
  - destruct o; simpl; tauto.
  - rewrite resets_copied.
    destruct (filter _ (timers w)); [tauto | discriminate].
Qed.

Lemma copied_needs_success (trace : list event) :
  copied (ui (run initialWorld trace)) = true -> In (Copy Fulfilled) trace.
Proof.
  induction trace as [|e trace IH] using rev_ind.
  - discriminate.
  - rewrite run_snoc. intros H. apply in_or_app.
    destruct (step_copied _ _ H) as [H' | ->]; [left; auto | right; now left].
Qed.

(** C7: a failed clipboard write ends the copy action normally, with the
    error logged and nothing else changed, so a [copied] flag that was
    false stays false; the flag only ever becomes true through a
    successful write. *)
Theorem handleCopy_failure (w : World) (e : error) :
  handleCopy (Rejected e) w
  = (Normal tt,
     {| ui := ui w; now := now w; timers := timers w;
        console := console w ++ [(lit "Failed to copy summary", e)] |})
  /\ (copied (ui w) = false ->
      copied (ui (step w (Copy (Rejected e)))) = false)
  /\ (forall o, exists w', handleCopy o w = (Normal tt, w'))
  /\ (forall o, copied (ui w) = false ->
                copied (ui (step w (Copy o))) = true -> o = Fulfilled)
  /\ (forall trace, copied (ui (run initialWorld trace)) = true ->
                    In (Copy Fulfilled) trace).
Proof.
  split; [apply handleCopy_Rejected |].
  split; [intros H; exact H |].
  split; [intros o; apply handleCopy_returns |].
  split; [| exact copied_needs_success].
  intros o Hf Ht. destruct (step_copied _ _ Ht) as [H | H]; congruence.
Qed.

Lemma handleCopy_failure_witness :
  copied (ui (step initialWorld (Copy (Rejected (lit "NotAllowedError")))))
  = false.
Proof.
  apply (proj1 (proj2 (handleCopy_failure initialWorld
                         (lit "NotAllowedError")))).
  reflexivity.
Defined.

Example failed_copy_keeps_earlier_flag :
  let w := run initialWorld
             [Copy Fulfilled; Elapse 500;
              Copy (Rejected (lit "NotAllowedError"))] in
  copied (ui w) = true
  /\ timers w = [2400%N]
  /\ console w = [(lit "Failed to copy summary", lit "NotAllowedError")].
Proof. repeat split; reflexivity. Qed.

Lemma elapse_copied (dt : N) (w : World) :
  copied (ui (elapse dt w)) = true
  <-> copied (ui w) = true
      /\ forall d, In d (timers w) -> (now w + dt < d)%N.
Proof.
  unfold elapse; simpl. rewrite resets_copied.
  destruct (filter (fun d => (d <=? now w + dt)%N) (timers w))
    as [|d0 due] eqn:E.
  - split; [| tauto]. intros H. split; [assumption |].
    intros d Hd.
    destruct (N.leb_spec d (now w + dt)) as [Hle | Hlt]; [| assumption].
    assert (Hin : In d (filter (fun d => (d <=? now w + dt)%N) (timers w))).
    { apply filter_In. split; [assumption | now apply N.leb_le]. }
    rewrite E in Hin. contradiction.
  - split; [discriminate |]. intros [_ Hall].
    assert (Hin : In d0 (filter (fun d => (d <=? now w + dt)%N) (timers w))).
    { rewrite E. now left. }
    apply filter_In in Hin as [Hin Hle]. apply N.leb_le in Hle.
    specialize (Hall d0 Hin). lia.
Qed.

(** C8, as the code has it: every successful copy sets [copied] and adds a
    reset due 2400 ms later without cancelling the pending ones; the flag
    then stays true until the earliest pending reset is due, which is the
    full 2400 ms when no earlier reset is pending. *)
Theorem copy_success_adds_reset (w : World) :
  let w' := step w (Copy Fulfilled) in
  copied (ui w') = true
  /\ timers w' = timers w ++ [(now w + 2400)%N]
  /\ (forall dt,
        copied (ui (step w' (Elapse dt))) = true
        <-> forall d, In d (timers w ++ [(now w + 2400)%N]) ->
                      (now w + dt < d)%N)
  /\ (timers w = [] ->
      forall dt, copied (ui (step w' (Elapse dt))) = true <-> (dt < 2400)%N).
Proof.
  cbv zeta. simpl step. unfold exec. rewrite handleCopy_Fulfilled. simpl snd.
  split; [reflexivity |]. split; [reflexivity |].
  assert (Hgen : forall dt,
             copied (ui (elapse dt
                           {| ui := setCopied true (ui w); now := now w;
                              timers := timers w ++ [(now w + 2400)%N];
                              console := console w |})) = true
             <-> forall d, In d (timers w ++ [(now w + 2400)%N]) ->
                           (now w + dt < d)%N).
  { intros dt. rewrite elapse_copied. simpl. tauto. }
  split; [exact Hgen |].
  intros Hnone dt. rewrite Hgen, Hnone. simpl. split.
  - intros H. specialize (H _ (or_introl eq_refl)). lia.
  - intros H d [<- | []]. lia.
Qed.

Lemma copy_success_adds_reset_witness :
  copied (ui (step (step initialWorld (Copy Fulfilled)) (Elapse 2399))) = true.
Proof.
  apply (proj2 (proj2 (proj2 (copy_success_adds_reset initialWorld)))
           eq_refl 2399%N).
  reflexivity.
Defined.

(** C8, as stated, fails: two successful copies 1000 ms apart leave two
    resets pending, and the first of them clears [copied] only 1400 ms
    after the second copy. *)
Lemma resets_stack :
  ~ single_pending_reset /\ ~ copied_for_full_delay.
Proof.
  split.
  - intros H.
    specialize (H [Copy Fulfilled; Elapse 1000; Copy Fulfilled]).
    vm_compute in H. lia.
  - intros H.
    specialize (H [Copy Fulfilled; Elapse 1000] 1400%N eq_refl).
    vm_compute in H. discriminate H.
Qed.

Example two_copies_trace :
  let w := run initialWorld [Copy Fulfilled; Elapse 1000; Copy Fulfilled] in
  timers w = [2400; 3400]%N
  /\ copied (ui w) = true
  /\ copied (ui (step w (Elapse 1399))) = true
  /\ copied (ui (step w (Elapse 1400))) = false
  /\ timers (step w (Elapse 1400)) = [3400]%N.
Proof. repeat split; reflexivity. Qed.

(** ** Stage *)

Lemma setStage_same (k : StepKey) (s : FormState) :
  same_but_stage (setStage k s) s.
Proof. repeat split. Qed.

(** C9: two states that differ only in [stage] have the same progress,
    insights, recommended prompts and summary. *)
Theorem stage_irrelevant (s1 s2 : FormState) :
  same_but_stage s1 s2 ->
  progress s1 = progress s2
  /\ insights s1 = insights s2
  /\ recommendedPrompts s1 = recommendedPrompts s2
  /\ formattedSummary s1 = formattedSummary s2.
Proof.
  intros (Hq & Hb & Hg & Hc & Hk & _).
  unfold progress, insights, recommendedPrompts, formattedSummary.
  rewrite Hq, Hb, Hg, Hc, Hk. repeat split.
Qed.

Lemma stage_irrelevant_witness :
  let s1 := setQuestion (lit "Why is latency high?")
              (toggleKeyword (lit "backend") initialState) in
  let s2 := setStage Kconstraints s1 in
  same_but_stage s1 s2
  /\ progress s1 = progress s2
  /\ insights s1 = insights s2
  /\ recommendedPrompts s1 = recommendedPrompts s2
  /\ formattedSummary s1 = formattedSummary s2.
Proof.
  cbv zeta. split.
  - repeat split.
  - apply stage_irrelevant. repeat split.
Defined.

(** ** Instances of the statements above on concrete states *)

Lemma recommendedPrompts_spec_witness :
  let s := setQuestion (lit "  ") (setGoal (lit " ") initialState) in
  whitespace_only (question s)
  /\ whitespace_only (goal s)
  /\ firstn 2 (recommendedPrompts s) = [prompt_unlock; prompt_sign_off]
  /\ ~ In prompt_done (recommendedPrompts s)
  /\ tone_at 0 s = Some warning
  /\ tone_at 2 s = Some warning.
Proof.
  cbv zeta.
  assert (Hq : whitespace_only
                 (question (setQuestion (lit "  ")
                              (setGoal (lit " ") initialState)))).
  { split; [vm_compute; lia | reflexivity]. }
  assert (Hg : whitespace_only
                 (goal (setQuestion (lit "  ")
                          (setGoal (lit " ") initialState)))).
  { split; [vm_compute; lia | reflexivity]. }
  pose proof (recommendedPrompts_spec
                (setQuestion (lit "  ") (setGoal (lit " ") initialState)))
    as (_ & _ & Tq & _ & Tg & _).
  destruct (Tq Hq) as [Pq Wq]. destruct (Tg Hg) as [Pg Wg].
  exact (conj Hq (conj Hg (conj Pq (conj Pg (conj Wq Wg))))).
Defined.

Lemma formattedSummary_spec_witness :
  formattedSummary (setQuestion (lit "X") initialState)
  = lit "🧠 Question: X" ++ newline ++ lit "📚 Background: —" ++ newline
    ++ lit "🎯 Desired outcome: —" ++ newline ++ lit "⏱️ Constraints: —".
Proof.
  apply (proj2 (proj2 (proj2 (formattedSummary_spec
                                (setQuestion (lit "X") initialState)))));
    reflexivity.
Defined.

Lemma recommendedPrompts_empty_iff_witness :
  let s := setBackground (lit "b")
             (setGoal (lit "g") (setConstraints (lit "c") initialState)) in
  recommendedPrompts s = []
  /\ recommendedPrompts (setQuestion (lit "q") s) <> [].
Proof.
  cbv zeta. split.
  - apply (proj1 (recommendedPrompts_empty_iff
                    (setBackground (lit "b")
                       (setGoal (lit "g")
                          (setConstraints (lit "c") initialState))))).
    repeat split; vm_compute; lia.
  - apply (proj2 (recommendedPrompts_empty_iff
                    (setQuestion (lit "q")
                       (setBackground (lit "b")
                          (setGoal (lit "g")
                             (setConstraints (lit "c") initialState)))))).
    vm_compute; lia.
Defined.

(** * Further properties of the component *)

(** ** Steps *)

Lemma activeStepIndex_step_index (s : FormState) :
  activeStepIndex s = Z.of_nat (step_index (stage s)).
Proof. unfold activeStepIndex. destruct (stage s); reflexivity. Qed.

(** X1: [findIndex] always finds the current stage among [steps]: the
    active index lies between 0 and 3, is never -1, and the step at that
    index is the one whose key is the stage. *)
Theorem activeStepIndex_found (s : FormState) :
  (0 <= activeStepIndex s <= 3)%Z
  /\ option_map StepInfo.key
       (nth_error steps (Z.to_nat (activeStepIndex s)))
     = Some (stage s).
Proof.
  rewrite activeStepIndex_step_index. destruct (stage s); simpl; split;
    solve [lia | reflexivity].
Qed.

Lemma stepButtons_inv (s : FormState) (i : nat) (b : StepButton) :
  nth_error (stepButtons s) i = Some b ->
  exists k, step_index k = i
            /\ b = {| step_key := k; step_onClick := setStage k;
                      step_highlighted := StepKey_eqb (stage s) k;
                      step_number := i + 1 |}.
Proof.
  unfold stepButtons, mapi, steps. simpl.
  destruct i as [|[|[|[|i]]]]; simpl; intros H;
    try (injection H as <-);
    [exists Kquestion | exists Kbackground | exists Kgoal
     | exists Kconstraints |]; try (split; reflexivity).
  destruct i; discriminate H.
Qed.

Lemma StepKey_eqb_eq (a b : StepKey) : StepKey_eqb a b = true <-> a = b.
Proof. destruct a, b; simpl; split; intros H; congruence. Qed.

Lemma step_index_inj (a b : StepKey) : step_index a = step_index b -> a = b.
Proof. destruct a, b; simpl; intros H; congruence. Qed.

(** X2: of the four step buttons exactly the one at the active index is
    highlighted; the i-th button is numbered i+1, and clicking it makes i
    the active index and changes nothing but the stage. *)
Theorem stepButtons_highlight (s : FormState) (i : nat) (b : StepButton) :
  nth_error (stepButtons s) i = Some b ->
  (step_highlighted b = true <-> Z.of_nat i = activeStepIndex s)
  /\ step_number b = (i + 1)%nat
  /\ activeStepIndex (step_onClick b s) = Z.of_nat i
  /\ same_but_stage (step_onClick b s) s.
Proof.
  intros H. destruct (stepButtons_inv s i H) as (k & <- & ->). simpl.
  rewrite !activeStepIndex_step_index. simpl.
  split; [| repeat split].
  rewrite StepKey_eqb_eq. split.
  - intros ->. reflexivity.
  - intros E. apply Nat2Z.inj in E. symmetry. now apply step_index_inj.
Qed.

Lemma stepButtons_highlight_witness :
  let s := setStage Kgoal initialState in
  exists b, nth_error (stepButtons s) 2 = Some b
            /\ step_highlighted b = true
            /\ step_number b = 3%nat.
Proof.
  cbv zeta. eexists. split; [reflexivity |].
  pose proof (stepButtons_highlight (setStage Kgoal initialState) 2 eq_refl)
    as (Hh & Hn & _).
  split; [apply Hh; reflexivity | exact Hn].
Defined.

(** X3: the footer shows four dots, and the highlighted ones are exactly
    the first [activeStepIndex + 1], so at least one and at most four. *)
Theorem footerDots_prefix (s : FormState) :
  footerDots s
  = repeat true (step_index (stage s) + 1)
    ++ repeat false (3 - step_index (stage s))
  /\ length (footerDots s) = 4%nat
  /\ Z.of_nat (length (filter (fun d => d) (footerDots s)))
     = (activeStepIndex s + 1)%Z.
Proof.
  unfold footerDots. rewrite activeStepIndex_step_index.
  destruct (stage s); repeat split; reflexivity.
Qed.

(** ** Field cards *)

Lemma fieldCards_inv (s : FormState) :
  exists card,
    fieldCards s = [card]
    /\ value card = field_of (stage s) s
    /\ onChange card = setField (stage s)
    /\ autoFocus card = StepKey_eqb (stage s) Kquestion.
Proof.
  unfold fieldCards. destruct (stage s); simpl; eexists;
    (split; [reflexivity | repeat split]).
Qed.

Lemma setField_field_of (k k' : StepKey) (text : jsstring) (s : FormState) :
  field_of k' (setField k text s)
  = if StepKey_eqb k' k then text else field_of k' s.
Proof. destruct k, k'; reflexivity. Qed.

Lemma setField_stage (k : StepKey) (text : jsstring) (s : FormState) :
  stage (setField k text s) = stage s.
Proof. destruct k; reflexivity. Qed.

(** X4: exactly one field card is rendered; it shows the field of the
    current stage, takes the focus only on the question step, and typing
    into it replaces that field and leaves the other three fields, the
    stage, the keywords and the copied flag alone, so the card rendered
    next shows the typed text. *)
Theorem fieldCards_current (s : FormState) :
  exists card,
    fieldCards s = [card]
    /\ value card = field_of (stage s) s
    /\ (autoFocus card = true <-> stage s = Kquestion)
    /\ forall text,
         let s' := onChange card text s in
         field_of (stage s) s' = text
         /\ (forall k, k <> stage s -> field_of k s' = field_of k s)
         /\ stage s' = stage s
         /\ keywords s' = keywords s
         /\ copied s' = copied s
         /\ map value (fieldCards s') = [text].
Proof.
  destruct (fieldCards_inv s) as (card & E & Hv & Hc & Ha).
  exists card. split; [exact E |]. split; [exact Hv |].
  split; [rewrite Ha; apply StepKey_eqb_eq |].
  intros text. cbv zeta. rewrite Hc.
  assert (Hself : field_of (stage s) (setField (stage s) text s) = text).
  { rewrite setField_field_of.
    now rewrite (proj2 (StepKey_eqb_eq (stage s) (stage s)) eq_refl). }
  split; [exact Hself |].
  split.
  { intros k Hk. rewrite setField_field_of.
    destruct (StepKey_eqb k (stage s)) eqn:Ek; [| reflexivity].
    apply StepKey_eqb_eq in Ek. contradiction. }
  split; [apply setField_stage |].
  split; [apply setField_keywords |].
  split; [apply setField_copied |].
  destruct (fieldCards_inv (setField (stage s) text s))
    as (card' & E' & Hv' & _).
  rewrite E'. simpl. rewrite Hv', setField_stage. now rewrite Hself.
Qed.

(** ** Keyword buttons *)

Lemma includes_toggle_same (k : jsstring) (l : list jsstring) :
  includes (toggleKeyword_update k l) k = negb (includes l k).
Proof.
  destruct (includes l k) eqn:E; simpl.
  - apply includes_In in E. rewrite (toggle_present k l E).
    apply not_true_is_false. rewrite includes_In, filter_other_In. tauto.
  - assert (Hout : ~ In k l).
    { intros H. apply includes_In in H. congruence. }
    rewrite (toggle_absent k l Hout). apply includes_In.
    apply in_or_app. right. now left.
Qed.

Lemma In_toggle_other (k x : jsstring) (l : list jsstring) :
  x <> k -> (In x (toggleKeyword_update k l) <-> In x l).
Proof.
  intros Hne. destruct (in_dec jsstring_eq_dec k l) as [Hin | Hout].
  - rewrite (toggle_present k l Hin), filter_other_In. tauto.
  - rewrite (toggle_absent k l Hout), in_app_iff. simpl. intuition congruence.
Qed.

Lemma includes_toggle_other (k x : jsstring) (l : list jsstring) :
  x <> k -> includes (toggleKeyword_update k l) x = includes l x.
Proof.
  intros Hne. pose proof (In_toggle_other l Hne) as H.
  rewrite <- !includes_In in H.
  destruct (includes (toggleKeyword_update k l) x), (includes l x);
    intuition congruence.
Qed.

Lemma keywordOptions_NoDup : NoDup keywordOptions.
Proof.
  unfold keywordOptions.
  repeat constructor; simpl; intros H;
    repeat (destruct H as [H | H]; [vm_compute in H; discriminate H |]);
    exact H.
Qed.

Lemma keywordButtons_inv (s : FormState) (i : nat) (b : KeywordButton) :
  nth_error (keywordButtons s) i = Some b ->
  exists k, nth_error keywordOptions i = Some k
            /\ b = {| keyword_text := k; keyword_onClick := toggleKeyword k;
                      keyword_selected := includes (keywords s) k |}.
Proof.
  unfold keywordButtons. rewrite nth_error_map.
  destruct (nth_error keywordOptions i) as [k |]; simpl; intros H;
    [| discriminate H].
  injection H as <-. now exists k.
Qed.

(** X5: a keyword button is selected exactly when its keyword is in the
    list; clicking the i-th button flips the selection of that button and
    leaves the selection of every other button as it was. *)
Theorem keywordButtons_click (s : FormState) (i j : nat)
  (b bj bj' : KeywordButton) :
  nth_error (keywordButtons s) i = Some b ->
  nth_error (keywordButtons s) j = Some bj ->
  nth_error (keywordButtons (keyword_onClick b s)) j = Some bj' ->
  (keyword_selected bj = true <-> In (keyword_text bj) (keywords s))
  /\ keyword_selected bj'
     = if (i =? j)%nat then negb (keyword_selected bj)
       else keyword_selected bj.
Proof.
  intros Hi Hj Hj'.
  destruct (keywordButtons_inv s i Hi) as (k & Hk & ->).
  destruct (keywordButtons_inv s j Hj) as (kj & Hkj & ->).
  destruct (keywordButtons_inv _ j Hj') as (kj' & Hkj' & ->).
  simpl. rewrite Hkj in Hkj'. injection Hkj' as <-.
  split; [apply includes_In |].
  destruct (Nat.eqb_spec i j) as [-> | Hne].
  - rewrite Hk in Hkj. injection Hkj as <-. apply includes_toggle_same.
  - apply includes_toggle_other. intros ->.
    apply Hne.
    apply (proj1 (NoDup_nth_error keywordOptions) keywordOptions_NoDup);
      [| congruence].
    apply nth_error_Some. congruence.
Qed.

Lemma keywordButtons_click_witness :
  let s := toggleKeyword (lit "product") initialState in
  exists b bj bj',
    nth_error (keywordButtons s) 2 = Some b
    /\ nth_error (keywordButtons s) 2 = Some bj
    /\ nth_error (keywordButtons (keyword_onClick b s)) 2 = Some bj'
    /\ keyword_selected bj = true
    /\ keyword_selected bj' = false.
Proof.
  cbv zeta. do 3 eexists.
  split; [reflexivity |]. split; [reflexivity |]. split; [reflexivity |].
  pose proof (keywordButtons_click
                (toggleKeyword (lit "product") initialState) 2 2
                eq_refl eq_refl eq_refl) as [_ H].
  split; [reflexivity | exact H].
Defined.

Lemma filter_other_comm (a b : jsstring) (l : list jsstring) :
  filter (fun item => negb (streq item a))
    (filter (fun item => negb (streq item b)) l)
  = filter (fun item => negb (streq item b))
      (filter (fun item => negb (streq item a)) l).
Proof.
  induction l as [|x l IH]; [reflexivity |]. simpl.
  destruct (streq x a) eqn:Ea, (streq x b) eqn:Eb; simpl;
    rewrite ?Ea, ?Eb; simpl; now rewrite IH.
Qed.

Lemma filter_other_snoc (a b : jsstring) (l : list jsstring) :
  a <> b ->
  filter (fun item => negb (streq item a)) (l ++ [b])
  = filter (fun item => negb (streq item a)) l ++ [b].
Proof.
  intros Hne. rewrite filter_app. simpl.
  destruct (streq b a) eqn:E; [| reflexivity].
  apply streq_true in E. congruence.
Qed.

(** X6: toggling two different keywords gives the same list in either
    order whenever at least one of them was selected; when neither was,
    both are appended and the two results differ only in the order of the
    last two entries. *)
Theorem toggle_commute (a b : jsstring) (l : list jsstring) :
  a <> b ->
  (In a l \/ In b l ->
   toggleKeyword_update a (toggleKeyword_update b l)
   = toggleKeyword_update b (toggleKeyword_update a l))
  /\ (~ In a l -> ~ In b l ->
      toggleKeyword_update a (toggleKeyword_update b l) = l ++ [b; a]
      /\ toggleKeyword_update b (toggleKeyword_update a l) = l ++ [a; b]).
Proof.
  intros Hne.
  assert (Hba : b <> a) by congruence.
  destruct (in_dec jsstring_eq_dec a l) as [Ha | Ha];
    destruct (in_dec jsstring_eq_dec b l) as [Hb | Hb].
  - split; [intros _ | tauto].
    rewrite (toggle_present b l Hb), (toggle_present a l Ha).
    rewrite toggle_present by (apply filter_other_In; tauto).
    rewrite (toggle_present b) by (apply filter_other_In; tauto).
    apply filter_other_comm.
  - split; [intros _ | tauto].
    rewrite (toggle_absent b l Hb), (toggle_present a l Ha).
    rewrite toggle_present by (apply in_or_app; now left).
    rewrite toggle_absent by (rewrite filter_other_In; tauto).
    now apply filter_other_snoc.
  - split; [intros _ | tauto].
    rewrite (toggle_present b l Hb), (toggle_absent a l Ha).
    rewrite toggle_absent by (rewrite filter_other_In; tauto).
    rewrite toggle_present by (apply in_or_app; now left).
    symmetry. now apply filter_other_snoc.
  - split; [tauto | intros _ _].
    rewrite (toggle_absent b l Hb), (toggle_absent a l Ha).
    rewrite !toggle_absent
      by (rewrite in_app_iff; simpl; intuition congruence).
    now rewrite <- !app_assoc.
Qed.

Lemma toggle_commute_witness :
  toggleKeyword_update (lit "people")
    (toggleKeyword_update (lit "backend") [lit "backend"; lit "process"])
  = toggleKeyword_update (lit "backend")
      (toggleKeyword_update (lit "people") [lit "backend"; lit "process"]).
Proof.
  apply (toggle_commute (a := lit "people") (b := lit "backend")
           [lit "backend"; lit "process"]).
  - vm_compute. discriminate.
  - right. left. reflexivity.
Defined.

(** ** Sessions driven through the rendered page *)

Lemma perform_step (w : World) (g : gesture) :
  perform w g = w \/ exists e, perform w g = step w e.
Proof.
  destruct g as [i | text | i | o | dt]; simpl.
  - destruct (nth_error (stepButtons (ui w)) i) as [b |] eqn:E; [| now left].
    destruct (stepButtons_inv _ i E) as (k & _ & ->).
    right. now exists (GoTo k).
  - destruct (fieldCards_inv (ui w)) as (card & -> & _ & Hc & _).
    right. exists (Change (stage (ui w)) text). simpl. now rewrite Hc.
  - destruct (nth_error (keywordButtons (ui w)) i) as [b |] eqn:E;
      [| now left].
    destruct (keywordButtons_inv _ i E) as (k & _ & ->).
    right. now exists (Toggle k).
  - right. now exists (Copy o).
  - right. now exists (Elapse dt).
Qed.

Lemma session_snoc (gs : list gesture) (g : gesture) :
  session (gs ++ [g]) = perform (session gs) g.
Proof. unfold session. now rewrite fold_left_app. Qed.

Lemma session_reachable (gs : list gesture) : reachable (session gs).
Proof.
  induction gs as [|g gs IH] using rev_ind.
  - now exists [].
  - rewrite session_snoc. destruct IH as [trace E].
    destruct (perform_step (session gs) g) as [-> | [e ->]].
    + now exists trace.
    + exists (trace ++ [e]). now rewrite run_snoc, <- E.
Qed.

Lemma perform_keywords_incl (w : World) (g : gesture) :
  incl (keywords (ui w)) keywordOptions ->
  incl (keywords (ui (perform w g))) keywordOptions.
Proof.
  intros H. destruct g as [i | text | i | o | dt]; simpl.
  - destruct (nth_error (stepButtons (ui w)) i) as [b |] eqn:E; [| exact H].
    destruct (stepButtons_inv _ i E) as (k & _ & ->). exact H.
  - destruct (fieldCards_inv (ui w)) as (card & -> & _ & Hc & _).
    simpl. rewrite Hc, setField_keywords. exact H.
  - destruct (nth_error (keywordButtons (ui w)) i) as [b |] eqn:E;
      [| exact H].
    destruct (keywordButtons_inv _ i E) as (k & Hk & ->). simpl.
    intros x Hx.
    destruct (jsstring_eq_dec x k) as [-> | Hne].
    + eapply nth_error_In. exact Hk.
    + apply H. now apply (In_toggle_other (keywords (ui w)) Hne).
  - destruct o; exact H.
  - simpl. rewrite resets_keywords. exact H.
Qed.

(** X7: whatever the user does on the page, the keyword list holds only
    quick keywords offered by the buttons, each at most once, so it never
    has more than six entries. *)
Theorem session_keywords (gs : list gesture) :
  incl (keywords (ui (session gs))) keywordOptions
  /\ NoDup (keywords (ui (session gs)))
  /\ (length (keywords (ui (session gs))) <= 6)%nat.
Proof.
  assert (Hincl : incl (keywords (ui (session gs))) keywordOptions).
  { induction gs as [|g gs IH] using rev_ind.
    - intros x [].
    - rewrite session_snoc. now apply perform_keywords_incl. }
  assert (Hnd : NoDup (keywords (ui (session gs)))).
  { destruct (session_reachable gs) as [trace ->].
    induction trace as [|e trace IH] using rev_ind.
    - constructor.
    - rewrite run_snoc. now apply step_keywords_NoDup. }
  split; [exact Hincl |]. split; [exact Hnd |].
  change 6%nat with (length keywordOptions).
  now apply NoDup_incl_length.
Qed.

(** Typing on the page only ever reaches the field of the step on
    display: a [TypeText] gesture sets that field to the typed text and
    leaves the other three fields unchanged. *)
Lemma perform_TypeText (w : World) (text : jsstring) :
  let w' := perform w (TypeText text) in
  field_of (stage (ui w)) (ui w') = text
  /\ (forall k, k <> stage (ui w) -> field_of k (ui w') = field_of k (ui w))
  /\ stage (ui w') = stage (ui w)
  /\ timers w' = timers w /\ now w' = now w /\ console w' = console w.
Proof.
  cbv zeta. simpl.
  destruct (fieldCards_inv (ui w)) as (card & -> & _ & Hc & _).
  simpl. rewrite Hc. rewrite setField_stage.
  split.
  { rewrite setField_field_of.
    now rewrite (proj2 (StepKey_eqb_eq _ _) eq_refl). }
  split; [| repeat split].
  intros k Hk. rewrite setField_field_of.
  destruct (StepKey_eqb k (stage (ui w))) eqn:Ek; [| reflexivity].
  apply StepKey_eqb_eq in Ek. contradiction.
Qed.

(** ** Derived values, one against the other *)

Section FivePrompts.

Variables a b c d e : jsstring.
Hypothesis distinct : NoDup [a; b; c; d; e].

Lemma firstn_rules_NoDup (q bg g cs : bool) :
  NoDup (firstn 4 (rules_of a b c d e q bg g cs))
  /\ incl (firstn 4 (rules_of a b c d e q bg g cs)) [a; b; c; d; e].
Proof.
  unfold rules_of.
  assert (Hne : a <> b /\ a <> c /\ a <> d /\ a <> e /\ b <> c /\ b <> d
                /\ b <> e /\ c <> d /\ c <> e /\ d <> e).
  { repeat match goal with
           | H : NoDup (_ :: _) |- _ =>
             apply NoDup_cons_iff in H; simpl in H; destruct H
           end.
    repeat split; intros ->; tauto. }
  destruct Hne as (? & ? & ? & ? & ? & ? & ? & ? & ? & ?).
  destruct q, bg, g, cs; simpl; split;
    solve [ repeat constructor; simpl; intuition congruence
          | intros x Hx; simpl in *; tauto ].
Qed.

End FivePrompts.

(** X8: the prompts on display are pairwise different, so the list items
    keyed by their text have distinct keys, and each is one of the five
    prompts of the component. *)
Theorem recommendedPrompts_NoDup (s : FormState) :
  NoDup (recommendedPrompts s)
  /\ incl (recommendedPrompts s)
       [prompt_unlock; prompt_sign_off; prompt_tried; prompt_done;
        prompt_limits].
Proof.
  rewrite recommendedPrompts_rules.
  exact (firstn_rules_NoDup prompts_distinct
           (0 <? length (question s))%nat
           (length (background s) =? 0)%nat
           (length (goal s) =? 0)%nat
           (length (constraints s) =? 0)%nat).
Qed.

(** X9: the cut to four entries only ever drops the prompt about
    deadlines, and only when the question is filled in while background,
    goal and constraints are all empty; in every other state all the
    prompts the rules produce are shown. *)
Theorem recommendedPrompts_cut (s : FormState) :
  (recommendedPrompts s <> prompt_rules s
   <-> (0 < length (question s))%nat
       /\ length (background s) = 0%nat
       /\ length (goal s) = 0%nat
       /\ length (constraints s) = 0%nat)
  /\ (recommendedPrompts s <> prompt_rules s ->
      recommendedPrompts s
      = [prompt_unlock; prompt_sign_off; prompt_tried; prompt_done]
      /\ prompt_rules s = recommendedPrompts s ++ [prompt_limits]).
Proof.
  rewrite recommendedPrompts_rules.
  split; [split |].
  - by_raw_emptiness s; intros H;
      solve [exfalso; apply H; reflexivity | repeat split; lia].
  - by_raw_emptiness s; intros (Hq & Hb & Hg & Hc);
      solve [lia | intros E; apply (f_equal (@length jsstring)) in E;
                   simpl in E; lia].
  - by_raw_emptiness s; intros H;
      solve [exfalso; apply H; reflexivity | split; reflexivity].
Qed.

Lemma recommendedPrompts_cut_witness :
  let s := setQuestion (lit "Why is latency high?") initialState in
  recommendedPrompts s
  = [prompt_unlock; prompt_sign_off; prompt_tried; prompt_done].
Proof.
  cbv zeta.
  apply (proj2 (recommendedPrompts_cut
                  (setQuestion (lit "Why is latency high?") initialState))).
  intros E. apply (f_equal (@length jsstring)) in E.
  vm_compute in E. discriminate E.
Defined.

Lemma formattedSummary_truthy (s : FormState) :
  truthy (formattedSummary s) = true.
Proof.
  rewrite formattedSummary_lines. unfold summary_lines.
  cbn [app join]. apply truthy_app. apply labelled_line_truthy. reflexivity.
Qed.

(** X10: the summary is never the empty string, whatever the state, so
    the summary box always shows the summary and never its placeholder
    text. *)
Theorem summaryBox_summary (s : FormState) :
  formattedSummary s <> []
  /\ summaryBox s = formattedSummary s.
Proof.
  pose proof (formattedSummary_truthy s) as H.
  unfold summaryBox, or_else. rewrite H. split; [| reflexivity].
  intros E. rewrite E in H. discriminate H.
Qed.

Lemma trim_nil_length (f : jsstring) :
  (0 <? length (trim f))%nat = true -> (0 <? length f)%nat = true.
Proof. destruct f; [discriminate | reflexivity]. Qed.

Lemma above_threshold_filled (n : nat) (f : jsstring) :
  (n <? length (trim f))%nat = true -> filled_after_trim f = true.
Proof.
  unfold filled_after_trim. rewrite !Nat.ltb_lt. lia.
Qed.

Lemma positive_count_sum (s : FormState) :
  positive_count s
  = (Nat.b2n (10 <? length (trim (question s)))
     + Nat.b2n (20 <? length (trim (background s)))
     + Nat.b2n (10 <? length (trim (goal s)))
     + Nat.b2n (5 <? length (trim (constraints s))))%nat.
Proof.
  unfold positive_count, insights, addInsight.
  destruct (10 <? length (trim (question s)))%nat,
    (20 <? length (trim (background s)))%nat,
    (10 <? length (trim (goal s)))%nat,
    (5 <? length (trim (constraints s)))%nat; reflexivity.
Qed.

Lemma progress_count (s : FormState) :
  progress s = (25 * Z.of_nat (non_empty_count s))%Z.
Proof.
  unfold progress. cbv zeta. rewrite filled_is_count.
  apply Math_round_quarters. apply non_empty_count_le.
Qed.

(** X11: every positive insight belongs to a field that the score counts
    as filled, so the score is at least 25 times the number of positive
    insights; four positive insights mean a score of 100 and a score of 0
    means four warnings. *)
Theorem progress_bounds_insights (s : FormState) :
  (25 * Z.of_nat (positive_count s) <= progress s)%Z
  /\ (positive_count s = 4%nat -> progress s = 100%Z)
  /\ (progress s = 0%Z -> map tone (insights s)
                          = [warning; warning; warning; warning]).
Proof.
  rewrite progress_count, positive_count_sum.
  assert (Hq := above_threshold_filled 10 (question s)).
  assert (Hb := above_threshold_filled 20 (background s)).
  assert (Hg := above_threshold_filled 10 (goal s)).
  assert (Hc := above_threshold_filled 5 (constraints s)).
  unfold non_empty_count, insights, addInsight.
  destruct (10 <? length (trim (question s)))%nat;
    destruct (20 <? length (trim (background s)))%nat;
    destruct (10 <? length (trim (goal s)))%nat;
    destruct (5 <? length (trim (constraints s)))%nat;
    rewrite ?(Hq eq_refl), ?(Hb eq_refl), ?(Hg eq_refl), ?(Hc eq_refl);
    destruct (filled_after_trim (question s)),
      (filled_after_trim (background s)),
      (filled_after_trim (goal s)),
      (filled_after_trim (constraints s));
    cbn [Nat.b2n Nat.add]; repeat split; intros; try reflexivity; try lia.
Qed.

Lemma progress_bounds_insights_witness :
  let s := setQuestion (lit "Why is latency high?")
             (setBackground (lit "It doubled after the last deploy.")
                (setGoal (lit "Back under 200 ms")
                   (setConstraints (lit "By Friday") initialState))) in
  positive_count s = 4%nat /\ progress s = 100%Z.
Proof.
  cbv zeta. split; [reflexivity |].
  apply (proj1 (proj2 (progress_bounds_insights
    (setQuestion (lit "Why is latency high?")
       (setBackground (lit "It doubled after the last deploy.")
          (setGoal (lit "Back under 200 ms")
             (setConstraints (lit "By Friday") initialState))))))).
  reflexivity.
Defined.






(** ** Editing one field *)

Lemma insights_nth_0 (s1 s2 : FormState) :
  question s1 = question s2 ->
  nth_error (insights s1) 0 = nth_error (insights s2) 0.
Proof.
  intros E. unfold insights, addInsight. rewrite E.
  destruct (10 <? length (trim (question s2)))%nat,
    (20 <? length (trim (background s1)))%nat,
    (10 <? length (trim (goal s1)))%nat,
    (5 <? length (trim (constraints s1)))%nat,
    (20 <? length (trim (background s2)))%nat,
    (10 <? length (trim (goal s2)))%nat,
    (5 <? length (trim (constraints s2)))%nat;
    cbn [app nth_error]; reflexivity.
Qed.

Lemma insights_nth_1 (s1 s2 : FormState) :
  background s1 = background s2 ->
  nth_error (insights s1) 1 = nth_error (insights s2) 1.
Proof.
  intros E. unfold insights, addInsight. rewrite E.
  destruct (20 <? length (trim (background s2)))%nat,
    (10 <? length (trim (question s1)))%nat,
    (10 <? length (trim (goal s1)))%nat,
    (5 <? length (trim (constraints s1)))%nat,
    (10 <? length (trim (question s2)))%nat,
    (10 <? length (trim (goal s2)))%nat,
    (5 <? length (trim (constraints s2)))%nat;
    cbn [app nth_error]; reflexivity.
Qed.

Lemma insights_nth_2 (s1 s2 : FormState) :
  goal s1 = goal s2 ->
  nth_error (insights s1) 2 = nth_error (insights s2) 2.
Proof.
  intros E. unfold insights, addInsight. rewrite E.
  destruct (10 <? length (trim (goal s2)))%nat,
    (10 <? length (trim (question s1)))%nat,
    (20 <? length (trim (background s1)))%nat,
    (5 <? length (trim (constraints s1)))%nat,
    (10 <? length (trim (question s2)))%nat,
    (20 <? length (trim (background s2)))%nat,
    (5 <? length (trim (constraints s2)))%nat;
    cbn [app nth_error]; reflexivity.
Qed.

Lemma insights_nth_3 (s1 s2 : FormState) :
  constraints s1 = constraints s2 ->
  nth_error (insights s1) 3 = nth_error (insights s2) 3.
Proof.
  intros E. unfold insights, addInsight. rewrite E.
  destruct (5 <? length (trim (constraints s2)))%nat,
    (10 <? length (trim (question s1)))%nat,
    (20 <? length (trim (background s1)))%nat,
    (10 <? length (trim (goal s1)))%nat,
    (10 <? length (trim (question s2)))%nat,
    (20 <? length (trim (background s2)))%nat,
    (10 <? length (trim (goal s2)))%nat;
    cbn [app nth_error]; reflexivity.
Qed.

Lemma insights_nth_beyond (s : FormState) (j : nat) :
  nth_error (insights s) (4 + j) = None.
Proof.
  destruct (insights_four s) as (iq & ib & ig & ic & -> & _).
  simpl. now destruct j.
Qed.

(** X13: editing one field can change only the insight of that field, the
    other three insights stay as they were, and it moves the score by at
    most 25. *)
Theorem edit_one_field (k : StepKey) (text : jsstring) (s : FormState) :
  (forall j, j <> step_index k ->
             nth_error (insights (setField k text s)) j
             = nth_error (insights s) j)
  /\ (Z.abs (progress (setField k text s) - progress s) <= 25)%Z.
Proof.
  split.
  - intros j Hj.
    destruct j as [|[|[|[|j]]]].
    + apply insights_nth_0. destruct k; try reflexivity. now elim Hj.
    + apply insights_nth_1. destruct k; try reflexivity. now elim Hj.
    + apply insights_nth_2. destruct k; try reflexivity. now elim Hj.
    + apply insights_nth_3. destruct k; try reflexivity. now elim Hj.
    + change (S (S (S (S j)))) with (4 + j)%nat.
      now rewrite !insights_nth_beyond.
  - rewrite !progress_count. unfold non_empty_count.
    destruct k; simpl;
      destruct (filled_after_trim text),
        (filled_after_trim (question s)),
        (filled_after_trim (background s)),
        (filled_after_trim (goal s)),
        (filled_after_trim (constraints s)); simpl; lia.
Qed.

Lemma edit_one_field_witness :
  nth_error (insights (setField Kgoal (lit "Back under 200 ms") initialState)) 0
  = nth_error (insights initialState) 0.
Proof.
  apply (proj1 (edit_one_field Kgoal (lit "Back under 200 ms") initialState)).
  discriminate.
Defined.

(** ** Timers and the copied flag over whole traces *)

Lemma StronglySorted_snoc (l : list N) (x : N) :
  StronglySorted N.le l -> Forall (fun d => (d <= x)%N) l ->
  StronglySorted N.le (l ++ [x]).
Proof.
  induction l as [|a l IH]; intros Hs Hf; simpl.
  - repeat constructor.
  - inversion Hs as [|? ? Hs' Ha]; subst.
    inversion Hf as [|? ? Hax Hf']; subst.
    constructor; [now apply IH |].
    apply Forall_app. split; [assumption | now repeat constructor].
Qed.

Lemma StronglySorted_filter (p : N -> bool) (l : list N) :
  StronglySorted N.le l -> StronglySorted N.le (filter p l).
Proof.
  induction l as [|a l IH]; intros Hs; simpl; [constructor |].
  inversion Hs as [|? ? Hs' Ha]; subst.
  destruct (p a); [| now apply IH].
  constructor; [now apply IH |].
  apply Forall_forall. intros x Hx. apply filter_In in Hx as [Hx _].
  rewrite Forall_forall in Ha. now apply Ha.
Qed.

Lemma step_timers_ok (w : World) (e : event) :
  timers_ok w -> timers_ok (step w e).
Proof.
  intros [Hs Hf]. destruct e as [k v | k | k | o | dt];
    try (split; assumption).
  - destruct o as [| err]; [| split; assumption].
    simpl. unfold exec. rewrite handleCopy_Fulfilled. unfold timers_ok. simpl.
    split.
    + apply StronglySorted_snoc; [assumption |].
      eapply Forall_impl; [| exact Hf]. simpl. intros d Hd. lia.
    + apply Forall_app. split; [assumption |].
      repeat constructor; lia.
  - unfold timers_ok. simpl. split.
    + now apply StronglySorted_filter.
    + apply Forall_forall. intros d Hd.
      apply filter_In in Hd as [Hd Hlt]. apply N.ltb_lt in Hlt.
      rewrite Forall_forall in Hf. specialize (Hf d Hd). lia.
Qed.

Lemma reachable_ind (P : World -> Prop) :
  P initialWorld ->
  (forall w e, reachable w -> P w -> P (step w e)) ->
  forall w, reachable w -> P w.
Proof.
  intros H0 Hstep w [trace ->].
  induction trace as [|e trace IH] using rev_ind.
  - exact H0.
  - rewrite run_snoc. apply Hstep; [now exists trace | exact IH].
Qed.

Lemma reachable_timers_ok (w : World) : reachable w -> timers_ok w.
Proof.
  revert w. apply (@reachable_ind timers_ok).
  - split; constructor.
  - intros w e _. apply step_timers_ok.
Qed.

(** X14: in every reachable state the pending resets are listed in due
    order, and each is due strictly later than now and at most 2400 ms
    from now; no reset is ever overdue or further away than the delay. *)
Theorem reachable_timers (w : World) :
  reachable w ->
  StronglySorted N.le (timers w)
  /\ Forall (fun d => (now w < d <= now w + 2400)%N) (timers w).
Proof. exact (@reachable_timers_ok w). Qed.

Lemma reachable_timers_witness :
  Forall (fun d => (1000 < d <= 1000 + 2400)%N)
    (timers (run initialWorld [Copy Fulfilled; Elapse 1000; Copy Fulfilled])).
Proof.
  apply (proj2 (reachable_timers
                  (w := run initialWorld
                          [Copy Fulfilled; Elapse 1000; Copy Fulfilled])
                  (ex_intro _ _ eq_refl))).
Defined.

Lemma step_copied_pending (w : World) (e : event) :
  (copied (ui w) = true -> timers w <> []) ->
  copied (ui (step w e)) = true -> timers (step w e) <> [].
Proof.
  intros IH. destruct e as [k v | k | k | o | dt]; simpl.
  - rewrite setField_copied. exact IH.
  - exact IH.
  - exact IH.
  - destruct o as [| err]; simpl; [| exact IH].
    intros _ E. apply app_eq_nil in E as [_ E]. discriminate E.
  - intros H. pose proof H as H'.
    change (copied (ui (elapse dt w)) = true) in H'.
    apply elapse_copied in H' as [Hc Hall].
    specialize (IH Hc).
    destruct (timers w) as [|d r] eqn:E; [congruence |].
    simpl. specialize (Hall d (or_introl eq_refl)).
    apply N.ltb_lt in Hall. rewrite Hall. discriminate.
Qed.

Lemma reachable_copied_pending (w : World) :
  reachable w -> copied (ui w) = true -> timers w <> [].
Proof.
  revert w.
  apply (@reachable_ind (fun w => copied (ui w) = true -> timers w <> [])).
  - discriminate.
  - intros w e _. apply step_copied_pending.
Qed.

(** X15: the copied flag never sticks: in every reachable state a true
    flag has a reset pending, and once 2400 ms pass without a new copy the
    flag is false and no reset is pending. *)
Theorem copied_resets (w : World) :
  reachable w ->
  (copied (ui w) = true -> timers w <> [])
  /\ copied (ui (step w (Elapse 2400))) = false
  /\ timers (step w (Elapse 2400)) = [].
Proof.
  intros Hr. pose proof (reachable_copied_pending Hr) as Hp.
  destruct (reachable_timers_ok Hr) as [_ Hf]. rewrite Forall_forall in Hf.
  split; [exact Hp |].
  assert (Hnone : timers (step w (Elapse 2400)) = []).
  { simpl.
    destruct (filter (fun d => (now w + 2400 <? d)%N) (timers w))
      as [|d r] eqn:E; [reflexivity |].
    assert (Hin : In d (filter (fun d => (now w + 2400 <? d)%N) (timers w))).
    { rewrite E. now left. }
    apply filter_In in Hin as [Hin Hlt]. apply N.ltb_lt in Hlt.
    specialize (Hf d Hin). lia. }
  split; [| exact Hnone].
  destruct (copied (ui (step w (Elapse 2400)))) eqn:Ec; [| reflexivity].
  exfalso. change (copied (ui (elapse 2400 w)) = true) in Ec.
  apply elapse_copied in Ec as [Hc Hall].
  specialize (Hp Hc).
  destruct (timers w) as [|d r]; [congruence |].
  specialize (Hall d (or_introl eq_refl)).
  specialize (Hf d (or_introl eq_refl)). lia.
Qed.

Lemma copied_resets_witness :
  copied
    (ui (step (run initialWorld [Copy Fulfilled; Elapse 1000; Copy Fulfilled])
           (Elapse 2400)))
  = false.
Proof.
  apply (proj1 (proj2 (copied_resets
    (w := run initialWorld [Copy Fulfilled; Elapse 1000; Copy Fulfilled])
    (ex_intro _ _ eq_refl)))).
Defined.

Lemma step_console (w : World) (e : event) :
  console (step w e)
  = console w
    ++ map (fun err => (lit "Failed to copy summary", err)) (rejections [e]).
Proof.
  destruct e as [k v | k | k | o | dt]; simpl;
    try (now rewrite app_nil_r).
  destruct o; simpl; [now rewrite app_nil_r | reflexivity].
Qed.

(** X16: the console holds one entry per failed copy and nothing else:
    after any trace it lists, in order, the errors of the rejected writes,
    each under the message of the handler. *)
Theorem console_rejections (trace : list event) :
  console (run initialWorld trace)
  = map (fun err => (lit "Failed to copy summary", err)) (rejections trace).
Proof.
  induction trace as [|e trace IH] using rev_ind.
  - reflexivity.
  - rewrite run_snoc, step_console, IH.
    unfold rejections. now rewrite flat_map_app, map_app.
Qed.

(** X17: copying and the passing of time never touch the form: after a
    copy, successful or not, and after any wait, the stage, the four
    fields and the keywords are what they were, and so are the score, the
    insights, the prompts and the summary. *)
Theorem copy_and_time_keep_form (w : World) (e : event) :
  (exists o, e = Copy o) \/ (exists dt, e = Elapse dt) ->
  form_of (ui (step w e)) = form_of (ui w)
  /\ progress (ui (step w e)) = progress (ui w)
  /\ insights (ui (step w e)) = insights (ui w)
  /\ recommendedPrompts (ui (step w e)) = recommendedPrompts (ui w)
  /\ formattedSummary (ui (step w e)) = formattedSummary (ui w).
Proof.
  intros He.
  assert (Hform : form_of (ui (step w e)) = form_of (ui w)).
  { destruct He as [[o ->] | [dt ->]].
    - destruct o; reflexivity.
    - simpl. generalize (filter (fun d => (d <=? now w + dt)%N) (timers w)).
      intros due. generalize (ui w). induction due as [|d due IH]; intros s.
      + reflexivity.
      + simpl. now rewrite IH. }
  split; [exact Hform |].
  unfold form_of in Hform.
  injection Hform as Hst Hq Hb Hg Hc Hk.
  unfold progress, insights, recommendedPrompts, formattedSummary.
  rewrite Hq, Hb, Hg, Hc, Hk. repeat split.
Qed.

Lemma copy_and_time_keep_form_witness :
  let w := run initialWorld
             [Change Kquestion (lit "Why is latency high?");
              Toggle (lit "backend")] in
  formattedSummary (ui (step w (Copy Fulfilled))) = formattedSummary (ui w).
Proof.
  cbv zeta.
  apply (copy_and_time_keep_form
           (run initialWorld
              [Change Kquestion (lit "Why is latency high?");
               Toggle (lit "backend")])
           (e := Copy Fulfilled)).
  left. now exists Fulfilled.
Defined.

(** ** More on the toggle and on blank fields *)

(** X18: in a list without duplicates, toggling a keyword twice gives back
    exactly the same list if and only if the keyword was absent or stood
    last; a keyword that was selected elsewhere comes back at the end. *)
Theorem toggle_twice_exact (k : jsstring) (l : list jsstring) :
  NoDup l ->
  (In k l ->
   toggleKeyword_update k (toggleKeyword_update k l)
   = filter (fun item => negb (streq item k)) l ++ [k])
  /\ (toggleKeyword_update k (toggleKeyword_update k l) = l
      <-> ~ In k l \/ exists l', l = l' ++ [k]).
Proof.
  intros Hnd. split; [apply toggle_twice_present |].
  destruct (in_dec jsstring_eq_dec k l) as [Hin | Hout].
  - rewrite (toggle_twice_present k l Hin). split.
    + intros E. right. eexists. symmetry. exact E.
    + intros [Hout | [l' ->]]; [contradiction |].
      apply NoDup_remove_2 in Hnd. rewrite app_nil_r in Hnd.
      rewrite filter_app, (filter_absent k l' Hnd). simpl.
      rewrite (proj2 (streq_true k k) eq_refl). simpl.
      now rewrite app_nil_r.
  - rewrite (toggle_twice_absent k l Hout). tauto.
Qed.

Lemma toggle_twice_exact_witness :
  toggleKeyword_update (lit "product")
    (toggleKeyword_update (lit "product")
       [lit "product"; lit "people"; lit "process"])
  = [lit "people"; lit "process"; lit "product"].
Proof.
  apply (proj1 (toggle_twice_exact (lit "product")
                  (l := [lit "product"; lit "people"; lit "process"])
                  ltac:(repeat constructor; simpl; intros H;
                        repeat (destruct H as [H | H];
                                [vm_compute in H; discriminate H |]);
                        exact H))).
  left. reflexivity.
Defined.

(** X19: with an empty question and background, goal and constraints
    holding white space only, the panel shows the completion message
    although the score is 0 and all four insights are warnings. *)
Theorem all_set_on_blank_form (s : FormState) :
  question s = [] ->
  whitespace_only (background s) ->
  whitespace_only (goal s) ->
  whitespace_only (constraints s) ->
  promptsPanel s
  = AllSet (lit "You're all set! Your question is ready to share.")
  /\ progress s = 0%Z
  /\ map tone (insights s) = [warning; warning; warning; warning].
Proof.
  intros Hq [Hb Tb] [Hg Tg] [Hc Tc].
  split; [| split].
  - unfold promptsPanel. rewrite recommendedPrompts_rules.
    unfold prompt_rules. rewrite Hq.
    destruct (background s), (goal s), (constraints s);
      simpl in Hb, Hg, Hc; try lia. reflexivity.
  - rewrite progress_count. unfold non_empty_count, filled_after_trim.
    rewrite Hq, Tb, Tg, Tc. reflexivity.
  - unfold insights, addInsight. rewrite Hq, Tb, Tg, Tc. reflexivity.
Qed.

Lemma all_set_on_blank_form_witness :
  let s := setBackground (lit " ")
             (setGoal (lit "  ") (setConstraints (lit "   ") initialState)) in
  promptsPanel s
  = AllSet (lit "You're all set! Your question is ready to share.")
  /\ progress s = 0%Z.
Proof.
  cbv zeta.
  pose proof (all_set_on_blank_form
                (setBackground (lit " ")
                   (setGoal (lit "  ")
                      (setConstraints (lit "   ") initialState)))
                eq_refl
                (conj (Nat.lt_0_succ 0) eq_refl)
                (conj (Nat.lt_0_succ 1) eq_refl)
                (conj (Nat.lt_0_succ 2) eq_refl)) as (Hp & Hs & _).
  exact (conj Hp Hs).
Defined.

Lemma fieldCards_current_witness :
  let s := setStage Kbackground initialState in
  exists card,
    fieldCards s = [card]
    /\ field_of Kgoal (onChange card (lit "Prior attempts") s)
       = field_of Kgoal s.
Proof.
  cbv zeta.
  destruct (fieldCards_current (setStage Kbackground initialState))
    as (card & E & _ & _ & H).
  exists card. split; [exact E |].
  apply (H (lit "Prior attempts")). discriminate.
Defined.
